(** * stressedout-go: the seeding and workload handlers of [main.go]

    A shallow embedding of the request handlers of the StressedOut server.
    The program talks to three collaborators that are not part of it: the
    PostgreSQL store behind [*pg.DB], the random content generators
    ([gofakeit], [rand]) with the clock, and the [http.ResponseWriter].
    The first two are interfaces here (type classes over an abstract state),
    so every theorem holds for every store and every random source; what the
    program does to them, and to the log and the response, is recorded in a
    trace of events in program order. *)

From Stdlib Require Import ZArith NArith List String Bool Lia Floats.
Import ListNotations.
Local Open Scope string_scope.
Local Open Scope list_scope.
Local Open Scope Z_scope.

Set Implicit Arguments.

(** ** Data model (main.go, lines 20-54) *)

(** [uuid.UUID] is a 128-bit value; [uuid.Nil], the zero value, is 0. *)
Definition UUID := N.
Definition uuid_Nil : UUID := 0%N.

(** [float64] is IEEE 754 binary64. *)
Definition float64 := PrimFloat.float.

(** [time.Time], as an instant on an integer time line. *)
Definition Time := Z.

(** The relation fields ([Orders], [Reviews], [User], [Product]) are never
    assigned by the program: they keep their nil zero value and are left out. *)
Module User.
Record t := mk { ID : UUID; Name : string; Address : string }.
Definition zero : t := mk uuid_Nil "" "".
Definition setID (i : UUID) (u : t) : t := mk i (Name u) (Address u).
End User.

Module Product.
Record t := mk { ID : UUID; Name : string; Description : string; Price : float64 }.
Definition zero : t := mk uuid_Nil "" "" 0%float.
Definition setID (i : UUID) (p : t) : t := mk i (Name p) (Description p) (Price p).
End Product.

Module Order.
Record t := mk {
  ID : UUID; UserID : UUID; ProductID : UUID;
  Quantity : Z; TotalPrice : float64; Date : Time }.
Definition setID (i : UUID) (o : t) : t :=
  mk i (UserID o) (ProductID o) (Quantity o) (TotalPrice o) (Date o).
End Order.

Module Review.
Record t := mk {
  ID : UUID; ProductID : UUID; UserID : UUID; Rating : Z; Content : string }.
Definition setID (i : UUID) (r : t) : t :=
  mk i (ProductID r) (UserID r) (Rating r) (Content r).
End Review.

(** The local types of [handleDBRead]. *)
Module CountResult.
Record t := mk { Count : Z }.
Definition zero : t := mk 0.
End CountResult.

Module ReviewRow.
Record t := mk { Username : string; Rating : Z; Content : string }.
End ReviewRow.

Definition newline : string := String (Ascii.ascii_of_nat 10) EmptyString.

(** A Go [error]; [Error] is its message. *)
Inductive error := mkError (msg : string).
Definition Error (e : error) : string := let 'mkError m := e in m.

(** ** The store: queries, inserts and DDL statements *)

(** The four query texts of the handlers, with their parameter. *)
Inductive query :=
| SelectRandomProduct                 (* SELECT * FROM products ORDER BY RANDOM() LIMIT 1 *)
| SelectRandomUser                    (* SELECT * FROM users ORDER BY RANDOM() LIMIT 1 *)
| CountOrders (product_id : UUID)     (* SELECT COUNT( * ) FROM orders WHERE product_id = ? *)
| CountUniqueUsers (product_id : UUID)(* SELECT COUNT(DISTINCT user_id) FROM orders WHERE product_id = ? *)
| SelectReviews (product_id : UUID).  (* SELECT u.name as username, r.rating, r.content
                                         FROM reviews r JOIN users u ON r.user_id = u.id
                                         WHERE r.product_id = ? *)

(** What a query is scanned into. *)
Inductive scan := SProduct | SUser | SCount | SReviewRows.

Definition scanT (k : scan) : Type :=
  match k with
  | SProduct => Product.t
  | SUser => User.t
  | SCount => CountResult.t
  | SReviewRows => list ReviewRow.t
  end.

(** What [Model(...).Insert()] is given: a slice of rows or one row. *)
Inductive batch :=
| BUsers (rows : list User.t)
| BProducts (rows : list Product.t)
| BOrders (rows : list Order.t)
| BReviews (rows : list Review.t)
| BOrder (row : Order.t)
| BReview (row : Review.t).

(** The schema statements of [setupDatabase]. *)
Inductive sqltype := TUUID | TTEXT | TINTEGER | TNUMERIC (precision scale : Z) | TTIMESTAMPTZ.

(** A [CHECK] condition over the column it is attached to. *)
Inductive check :=
| CkGe (k : Z)                (* col >= k *)
| CkLe (k : Z)                (* col <= k *)
| CkAnd (a b : check).

Record column := mkColumn {
  col_name : string;
  col_type : sqltype;
  col_primary_key : bool;
  col_default_uuid : bool;             (* DEFAULT uuid_generate_v4() *)
  col_not_null : bool;
  col_references : option (string * string);
  col_check : option check }.

Inductive statement :=
| CreateExtension (name : string)                        (* CREATE EXTENSION IF NOT EXISTS *)
| CreateTable (name : string) (cols : list column).      (* CREATE TABLE IF NOT EXISTS *)

(** The methods of [*pg.DB] the program calls, over the store's state [DB].
    A query takes the destination the caller passes by pointer and gives back
    what it holds afterwards, with the error. An insert answers with an error
    or with the primary keys the store generated ([RETURNING id]), which go-pg
    scans back into the rows it was given, by position. *)
Class PgDB (DB : Type) := {
  pgQueryOne : forall k : scan, scanT k -> query -> DB -> scanT k * option error * DB;
  pgQuery : forall k : scan, scanT k -> query -> DB -> scanT k * option error * DB;
  pgInsert : batch -> DB -> (error + (nat -> UUID)) * DB;
  pgExec : statement -> DB -> option error * DB }.

(** ** The random generators and the clock *)

Module AddressInfo.
Record t := mk { Street : string; City : string; Country : string }.
End AddressInfo.

(** The generators of [gofakeit] and [rand], and [time.Now], over the state
    [G] of the random sources and the clock. [Uint64] is the raw source that
    the bounded draws ([rand.Intn], [gofakeit.Number]) are reduced from. *)
Class Faker (G : Type) := {
  fkUint64 : G -> N * G;
  fkName : G -> string * G;
  fkAddress : G -> AddressInfo.t * G;
  fkProductName : G -> string * G;
  fkProductDescription : G -> string * G;
  fkPrice : float64 -> float64 -> G -> float64 * G;
  fkParagraph : Z -> Z -> Z -> string -> G -> string * G;
  fkDateRange : Time -> Time -> G -> Time * G;
  fkNow : G -> Time * G;
  fkAddDate : Z -> Z -> Z -> Time -> Time }.

(** ** Events *)

(** The data handed to the templates. *)
Inductive view :=
| ReadData (ProductName : string) (OrderCount UniqueUserCount : Z)
           (Reviews : list ReviewRow.t)
| WriteData (ProductName UserName : string) (OrderQuantity : Z)
            (OrderTotalPrice : float64) (ReviewRating : Z) (ReviewContent : string).

(** An argument of [log.Printf]. *)
Inductive logarg := AErr (e : error) | AInt (n : Z) | ADB.

(** Everything the program does to the outside, in program order. A store
    call is recorded with what the store answered. *)
Inductive event :=
| EvQueryOne (k : scan) (q : query) (got : scanT k) (err : option error)
| EvQuery (k : scan) (q : query) (got : scanT k) (err : option error)
| EvInsert (b : batch) (err : option error)
| EvExec (st : statement) (err : option error)
| EvLog (format : string) (args : list logarg)
| EvWriteHeader (code : Z)
| EvWrite (body : string)
| EvRender (name : string) (data : view).

Definition StatusOK : Z := 200.
Definition StatusCreated : Z := 201.
Definition StatusInternalServerError : Z := 500.

(** ** The program monad: state, trace and panics *)

Inductive outcome (A : Type) :=
| Done (a : A)
| Panicked (msg : string).
Arguments Panicked {A} msg.

Record State (DB G : Type) := mkState { db : DB; gen : G; trace : list event }.

Definition M (DB G A : Type) := State DB G -> outcome A * State DB G.

Definition ret {DB G A} (a : A) : M DB G A := fun s => (Done a, s).

Definition bind {DB G A B} (m : M DB G A) (f : A -> M DB G B) : M DB G B :=
  fun s => match m s with
           | (Done a, s') => f a s'
           | (Panicked msg, s') => (Panicked msg, s')
           end.

Definition panic {DB G A} (msg : string) : M DB G A := fun s => (Panicked msg, s).

Declare Scope prog_scope.
Delimit Scope prog_scope with prog.
Notation "x <- c ;; k" := (bind c (fun x => k))
  (at level 100, c at next level, right associativity) : prog_scope.
Notation "' p <- c ;; k" := (bind c (fun x => let 'p := x in k))
  (at level 100, p pattern, c at next level, right associativity) : prog_scope.
Notation "c ;; k" := (bind c (fun _ => k))
  (at level 100, right associativity) : prog_scope.
Local Open Scope prog_scope.

Section Program.
Context {DB G : Type} {pg : PgDB DB} {fk : Faker G}.

#[local] Abbreviation Prog := (M DB G).

Definition emit (e : event) : Prog unit :=
  fun s => (Done tt, mkState (db s) (gen s) (trace s ++ [e])).

(** *** Store calls *)

Definition QueryOne (k : scan) (dest : scanT k) (q : query) : Prog (scanT k * option error) :=
  fun s => let '(got, err, d) := pgQueryOne k dest q (db s) in
           (Done (got, err), mkState d (gen s) (trace s ++ [EvQueryOne k q got err])).

(** The context only carries the cancellation of the request. *)
Definition QueryOneContext := QueryOne.

Definition QueryContext (k : scan) (dest : scanT k) (q : query) : Prog (scanT k * option error) :=
  fun s => let '(got, err, d) := pgQuery k dest q (db s) in
           (Done (got, err), mkState d (gen s) (trace s ++ [EvQuery k q got err])).

Definition ExecContext (st : statement) : Prog (option error) :=
  fun s => let '(err, d) := pgExec st (db s) in
           (Done err, mkState d (gen s) (trace s ++ [EvExec st err])).

(** The rows after the insert: on success each has the key generated for
    its position, on error they are as they were. *)
Fixpoint assign_ids {A} (setID : UUID -> A -> A) (ids : nat -> UUID) (i : nat) (rows : list A) : list A :=
  match rows with
  | [] => []
  | r :: rest => setID (ids i) r :: assign_ids setID ids (S i) rest
  end.

Definition Insert {A} (wrap : A -> batch) (scanID : (nat -> UUID) -> A -> A) (rows : A)
  : Prog (A * option error) :=
  fun s => match pgInsert (wrap rows) (db s) with
           | (inl e, d) =>
               (Done (rows, Some e), mkState d (gen s) (trace s ++ [EvInsert (wrap rows) (Some e)]))
           | (inr ids, d) =>
               (Done (scanID ids rows, None), mkState d (gen s) (trace s ++ [EvInsert (wrap rows) None]))
           end.

Definition InsertUsers := Insert BUsers (fun ids => assign_ids User.setID ids 0).
Definition InsertProducts := Insert BProducts (fun ids => assign_ids Product.setID ids 0).
Definition InsertOrders := Insert BOrders (fun ids => assign_ids Order.setID ids 0).
Definition InsertReviews := Insert BReviews (fun ids => assign_ids Review.setID ids 0).
Definition InsertOrder := Insert BOrder (fun ids => Order.setID (ids 0%nat)).
Definition InsertReview := Insert BReview (fun ids => Review.setID (ids 0%nat)).

(** *** Log and response *)

Definition Printf (format : string) (args : list logarg) : Prog unit := emit (EvLog format args).
Definition Println (msg : string) : Prog unit := emit (EvLog msg []).
Definition WriteHeader (code : Z) : Prog unit := emit (EvWriteHeader code).
Definition Write (body : string) : Prog unit := emit (EvWrite body).
Definition ExecuteTemplate (name : string) (data : view) : Prog unit := emit (EvRender name data).

(** [http.Error]: the status, then the message and a newline as the body
    (the headers it sets are not part of the model). *)
Definition http_Error (msg : string) (code : Z) : Prog unit :=
  WriteHeader code ;; Write (msg ++ newline)%string.

(** *** Random draws *)

Definition fake {A} (f : G -> A * G) : Prog A :=
  fun s => let '(a, g) := f (gen s) in (Done a, mkState (db s) g (trace s)).

(** [rand.Intn(n)]: a value of [0, n); panics when [n <= 0]. *)
Definition Intn (n : Z) : Prog Z :=
  if n <=? 0 then panic "invalid argument to Intn"
  else r <- fake fkUint64 ;; ret (Z.of_N r mod n).

(** [gofakeit.Number(min, max)]: a value of [min, max]. *)
Definition Number (min max : Z) : Prog Z :=
  if min =? max then ret min
  else
    let lo := Z.min min max in
    let hi := Z.max min max in
    r <- fake fkUint64 ;; ret (lo + Z.of_N r mod (hi - lo + 1)).

(** [s[i]] on a slice: panics out of range. *)
Definition index {A} (s : list A) (i : Z) : Prog A :=
  if i <? 0 then panic "index out of range"
  else match nth_error s (Z.to_nat i) with
       | Some a => ret a
       | None => panic "index out of range"
       end.

Definition len {A} (s : list A) : Z := Z.of_nat (List.length s).

(** [float64(n)] for an [int]. *)
Definition float64_of_int (n : Z) : float64 :=
  if n <? 0 then PrimFloat.opp (PrimFloat.of_uint63 (Uint63.of_Z (- n)))
  else PrimFloat.of_uint63 (Uint63.of_Z n).

(** [s := make([]T, n); for i := range s { s[i] = body }]: the slice of
    the [n] values the body generates, in index order. *)
Fixpoint forRange {A} (n : nat) (body : Prog A) : Prog (list A) :=
  match n with
  | O => ret []
  | S n' => a <- body ;; rest <- forRange n' body ;; ret (a :: rest)
  end.

Definition make_range {A} (n : Z) (body : Prog A) : Prog (list A) :=
  forRange (Z.to_nat n) body.

End Program.

(** ** The schema of [setupDatabase] (main.go, lines 311-369) *)

Definition plain (name : string) (ty : sqltype) : column :=
  mkColumn name ty false false true None None.                (* <name> <ty> NOT NULL *)
Definition pk_uuid : column :=
  mkColumn "id" TUUID true true false None None.              (* id UUID PRIMARY KEY DEFAULT uuid_generate_v4() *)
Definition fk_uuid (name table : string) : column :=
  mkColumn name TUUID false false true (Some (table, "id")) None.  (* <name> UUID NOT NULL REFERENCES <table>(id) *)

Definition uuid_ossp : statement := CreateExtension "uuid-ossp".

Definition users_table : statement :=
  CreateTable "users"
    [ pk_uuid; plain "name" TTEXT; plain "address" TTEXT ].

Definition products_table : statement :=
  CreateTable "products"
    [ pk_uuid; plain "name" TTEXT; plain "description" TTEXT; plain "price" (TNUMERIC 10 2) ].

Definition orders_table : statement :=
  CreateTable "orders"
    [ pk_uuid; fk_uuid "user_id" "users"; fk_uuid "product_id" "products";
      plain "quantity" TINTEGER; plain "total_price" (TNUMERIC 10 2);
      plain "date" TTIMESTAMPTZ ].

(** [rating INTEGER NOT NULL CHECK (rating >= 0 AND rating <= 100)] *)
Definition rating_column : column :=
  mkColumn "rating" TINTEGER false false true None (Some (CkAnd (CkGe 0) (CkLe 100))).

Definition reviews_table : statement :=
  CreateTable "reviews"
    [ pk_uuid; fk_uuid "product_id" "products"; fk_uuid "user_id" "users";
      rating_column; plain "content" TTEXT ].

(** What a [CHECK] condition says of a value of its column. *)
Fixpoint check_holds (c : check) (v : Z) : bool :=
  match c with
  | CkGe k => k <=? v
  | CkLe k => v <=? k
  | CkAnd a b => check_holds a v && check_holds b v
  end.

(** Whether a column takes an integer value ([None] is SQL's NULL). *)
Definition column_accepts (c : column) (v : option Z) : bool :=
  match v with
  | None => negb (col_not_null c)
  | Some z => match col_check c with
              | Some ck => check_holds ck z
              | None => true
              end
  end.

Definition columns_of (st : statement) : list column :=
  match st with
  | CreateTable _ cols => cols
  | CreateExtension _ => []
  end.

Definition find_column (name : string) (st : statement) : option column :=
  find (fun c => String.eqb (col_name c) name) (columns_of st).

(** ** The handlers *)

Section Handlers.
Context {DB G : Type} {pg : PgDB DB} {fk : Faker G}.

#[local] Abbreviation Prog := (M DB G).

(** [handleDBRead] (main.go, lines 129-211). *)
Definition handleDBRead : Prog unit :=
  '(product, err) <- QueryOneContext SProduct Product.zero SelectRandomProduct ;;
  match err with
  | Some e =>
      Printf "error selecting random product: %v" [AErr e] ;;
      WriteHeader StatusInternalServerError
  | None =>
  '(orderCount, err) <- QueryOne SCount CountResult.zero (CountOrders (Product.ID product)) ;;
  match err with
  | Some e =>
      Printf "error counting orders: %v" [AErr e] ;;
      WriteHeader StatusInternalServerError
  | None =>
  '(uniqueUserCount, err) <- QueryOne SCount CountResult.zero (CountUniqueUsers (Product.ID product)) ;;
  match err with
  | Some e =>
      Printf "error counting unique users: %v" [AErr e] ;;
      WriteHeader StatusInternalServerError
  | None =>
  '(reviews, err) <- QueryContext SReviewRows [] (SelectReviews (Product.ID product)) ;;
  match err with
  | Some e =>
      Printf "error fetching reviews: %v" [AErr e] ;;
      WriteHeader StatusInternalServerError
  | None =>
  ExecuteTemplate "read.html"
    (ReadData (Product.Name product) (CountResult.Count orderCount)
              (CountResult.Count uniqueUserCount) reviews)
  end end end end.

(** [handleDBWrite] (main.go, lines 214-283). *)
Definition handleDBWrite : Prog unit :=
  '(product, err) <- QueryOneContext SProduct Product.zero SelectRandomProduct ;;
  match err with
  | Some e => Printf "error selecting random product: %v" [AErr e]
  | None => ret tt
  end ;;
  '(user, err) <- QueryOneContext SUser User.zero SelectRandomUser ;;
  match err with
  | Some e => Printf "error selecting random user: %v" [AErr e]
  | None => ret tt
  end ;;
  quantity <- Number 1 5 ;;
  now <- fake fkNow ;;
  let order :=
    Order.mk uuid_Nil (User.ID user) (Product.ID product) quantity
             (float64_of_int quantity * Product.Price product)%float now in
  '(order, err) <- InsertOrder order ;;
  match err with
  | Some e => Printf "error inserting new order: %v" [AErr e]
  | None => ret tt
  end ;;
  rating <- Number 1 100 ;;
  content <- fake (fkParagraph 1 3 10 ".") ;;
  let review := Review.mk uuid_Nil (Product.ID product) (User.ID user) rating content in
  '(review, err) <- InsertReview review ;;
  match err with
  | Some e => Printf "error inserting new review: %v" [AErr e]
  | None => ret tt
  end ;;
  ExecuteTemplate "write.html"
    (WriteData (Product.Name product) (User.Name user)
               (Order.Quantity order) (Order.TotalPrice order)
               (Review.Rating review) (Review.Content review)).

(** [setupDatabase] (main.go, lines 305-373). *)
Definition setupDatabase : Prog (option error) :=
  Printf "setupDatabase: got database %v" [ADB] ;;
  err <- ExecContext uuid_ossp ;;
  match err with
  | Some e => Printf "error creating uuid-ossp extension: %v" [AErr e]
  | None => ret tt
  end ;;
  err <- ExecContext users_table ;;
  match err with
  | Some e => Printf "error creating users table: %v" [AErr e]
  | None => ret tt
  end ;;
  err <- ExecContext products_table ;;
  match err with
  | Some e => Printf "error creating products table: %v" [AErr e]
  | None => ret tt
  end ;;
  err <- ExecContext orders_table ;;
  match err with
  | Some e => Printf "error creating orders table: %v" [AErr e]
  | None => ret tt
  end ;;
  err <- ExecContext reviews_table ;;
  match err with
  | Some e => Printf "error creating reviews table: %v" [AErr e]
  | None => ret tt
  end ;;
  Println "Database schema created successfully" ;;
  ret None.

(** The slices of [seedDatabase] as they are when it returns. *)
Record SeedLocals := mkSeedLocals {
  users : list User.t;
  products : list Product.t;
  orders : list Order.t;
  reviews : list Review.t }.

Definition newUser : Prog User.t :=
  name <- fake fkName ;;
  street <- fake fkAddress ;;
  city <- fake fkAddress ;;
  country <- fake fkAddress ;;
  ret (User.mk uuid_Nil name
         (AddressInfo.Street street ++ ", " ++ AddressInfo.City city ++ ", "
            ++ AddressInfo.Country country)%string).

Definition newProduct : Prog Product.t :=
  name <- fake fkProductName ;;
  description <- fake fkProductDescription ;;
  price <- fake (fkPrice 1%float 1000%float) ;;
  ret (Product.mk uuid_Nil name description price).

Definition newOrder (users : list User.t) (products : list Product.t) : Prog Order.t :=
  i <- Intn (len users) ;;
  user <- index users i ;;
  j <- Intn (len products) ;;
  product <- index products j ;;
  quantity <- Number 1 10 ;;
  from <- fake fkNow ;;
  to <- fake fkNow ;;
  date <- fake (fkDateRange (fkAddDate (-1) 0 0 from) to) ;;
  ret (Order.mk uuid_Nil (User.ID user) (Product.ID product) quantity
         (float64_of_int quantity * Product.Price product)%float date).

Definition newReview (users : list User.t) (products : list Product.t) : Prog Review.t :=
  i <- Intn (len users) ;;
  user <- index users i ;;
  j <- Intn (len products) ;;
  product <- index products j ;;
  rating <- Number 1 100 ;;
  content <- fake (fkParagraph 1 3 10 ".") ;;
  ret (Review.mk uuid_Nil (Product.ID product) (User.ID user) rating content).

(** The body of [seedDatabase] (main.go, lines 376-441); the bodies of its
    four loops are [newUser], [newProduct], [newOrder] and [newReview]. *)
Definition seedDatabase_body : Prog SeedLocals :=
  users <- make_range 2000 newUser ;;
  '(users, err) <- InsertUsers users ;;
  match err with
  | Some e => Printf "error inserting users: %v" [AErr e]
  | None => ret tt
  end ;;
  Printf "Inserted %d users" [AInt (len users)] ;;
  products <- make_range 100 newProduct ;;
  '(products, err) <- InsertProducts products ;;
  match err with
  | Some e => Printf "error inserting products: %v" [AErr e]
  | None => ret tt
  end ;;
  Printf "Inserted %d products" [AInt (len products)] ;;
  orders <- make_range 30000 (newOrder users products) ;;
  '(orders, err) <- InsertOrders orders ;;
  match err with
  | Some e => Printf "error inserting orders: %v" [AErr e]
  | None => ret tt
  end ;;
  Printf "Inserted %d orders" [AInt (len orders)] ;;
  reviews <- make_range 10000 (newReview users products) ;;
  '(reviews, err) <- InsertReviews reviews ;;
  match err with
  | Some e => Printf "error inserting reviews: %v" [AErr e]
  | None => ret tt
  end ;;
  Printf "Inserted %d reviews" [AInt (len reviews)] ;;
  ret (mkSeedLocals users products orders reviews).

(** [seedDatabase] (main.go, lines 375-444). *)
Definition seedDatabase : Prog (option error) :=
  _ <- seedDatabase_body ;;
  ret None.

(** [handleFirstRun] (main.go, lines 285-293). *)
Definition handleFirstRun : Prog unit :=
  err <- setupDatabase ;;
  match err with
  | Some e => http_Error (Error e) StatusInternalServerError
  | None => ret tt
  end ;;
  WriteHeader StatusOK ;;
  Write "Database created successfully".

(** [handleSeedDB] (main.go, lines 295-303). *)
Definition handleSeedDB : Prog unit :=
  err <- seedDatabase ;;
  match err with
  | Some e => http_Error (Error e) StatusInternalServerError
  | None => ret tt
  end ;;
  WriteHeader StatusCreated ;;
  Write "Database seeded successfully".

End Handlers.

(** ** Observations on a run *)

(** The result of running a program from a state, and the events it added
    to the trace. *)
Definition result {DB G A} (m : M DB G A) (s : State DB G) : outcome A := fst (m s).

Definition emitted {DB G A} (m : M DB G A) (s : State DB G) : list event :=
  skipn (List.length (trace s)) (trace (snd (m s))).

(** The inserts submitted to the store, in order. *)
Fixpoint inserts (evs : list event) : list batch :=
  match evs with
  | [] => []
  | EvInsert b _ :: rest => b :: inserts rest
  | _ :: rest => inserts rest
  end.

(** The queries issued to the store, in order. *)
Fixpoint queries (evs : list event) : list query :=
  match evs with
  | [] => []
  | EvQueryOne _ q _ _ :: rest => q :: queries rest
  | EvQuery _ q _ _ :: rest => q :: queries rest
  | _ :: rest => queries rest
  end.

(** The errors the store answered with, in order. *)
Fixpoint store_errors (evs : list event) : list error :=
  match evs with
  | [] => []
  | EvQueryOne _ _ _ (Some e) :: rest => e :: store_errors rest
  | EvQuery _ _ _ (Some e) :: rest => e :: store_errors rest
  | EvInsert _ (Some e) :: rest => e :: store_errors rest
  | EvExec _ (Some e) :: rest => e :: store_errors rest
  | _ :: rest => store_errors rest
  end.

(** The templates rendered into the response. *)
Fixpoint renders (evs : list event) : list (string * view) :=
  match evs with
  | [] => []
  | EvRender name data :: rest => (name, data) :: renders rest
  | _ :: rest => renders rest
  end.

(** The status the caller receives: the first [WriteHeader] decides; a write
    to the body before any [WriteHeader] sends 200. *)
Fixpoint status_of (evs : list event) : option Z :=
  match evs with
  | [] => None
  | EvWriteHeader code :: _ => Some code
  | EvWrite _ :: _ => Some StatusOK
  | EvRender _ _ :: _ => Some StatusOK
  | _ :: rest => status_of rest
  end.

(** The chunks written to the body with [w.Write]. *)
Fixpoint body_of (evs : list event) : list string :=
  match evs with
  | [] => []
  | EvWrite b :: rest => b :: body_of rest
  | _ :: rest => body_of rest
  end.

(** The error [e] was logged. *)
Definition logged (e : error) (evs : list event) : Prop :=
  exists format, In (EvLog format [AErr e]) evs.

(** The log line of an [if err != nil { log.Printf(format, err) }]. *)
Definition log_if (format : string) (err : option error) : list event :=
  match err with
  | Some e => [EvLog format [AErr e]]
  | None => []
  end.

(** What an insert leaves in the rows it was given: on error they are as
    they were, on success they carry the keys the store generated. *)
Definition inserted {A} (scanID : (nat -> UUID) -> A -> A) (rows rows' : A)
           (err : option error) : Prop :=
  match err with
  | Some _ => rows' = rows
  | None => exists ids, rows' = scanID ids rows
  end.

(** ** A program logic for runs

    [safe m Q]: from every state, [m] returns (it does not panic), and the
    value it returns and the events it emits satisfy [Q]. *)
Definition safe {DB G A} (m : M DB G A) (Q : A -> list event -> Prop) : Prop :=
  forall s, exists a evs s',
    m s = (Done a, s') /\ trace s' = trace s ++ evs /\ Q a evs.

(** ** Observations used by the statements *)

(** The product a query is about; the two samples are about none. *)
Definition query_product (q : query) : option UUID :=
  match q with
  | SelectRandomProduct | SelectRandomUser => None
  | CountOrders pid | CountUniqueUsers pid | SelectReviews pid => Some pid
  end.

(** The table a batch goes to and the number of its rows. *)
Definition batch_shape (b : batch) : string * Z :=
  match b with
  | BUsers rows => ("users", len rows)
  | BProducts rows => ("products", len rows)
  | BOrders rows => ("orders", len rows)
  | BReviews rows => ("reviews", len rows)
  | BOrder _ => ("orders", 1)
  | BReview _ => ("reviews", 1)
  end.

(** The table and the outcome of each insert, in order. *)
Fixpoint insert_outcomes (evs : list event) : list (string * option error) :=
  match evs with
  | [] => []
  | EvInsert b err :: rest => (fst (batch_shape b), err) :: insert_outcomes rest
  | _ :: rest => insert_outcomes rest
  end.

(** Events of the store and the log: they leave the response as it is. *)
Definition backstage (e : event) : bool :=
  match e with
  | EvWriteHeader _ | EvWrite _ | EvRender _ _ => false
  | _ => true
  end.

(** The spec's "rounded to two decimal places", for a [float64]: the
    [float64] nearest to the multiple of 1/100 nearest to the value (halves
    away from zero). A finite value is [m * 2^e]. *)
Definition round2dp (x : float64) : float64 :=
  match Prim2SF x with
  | S754_finite sign m e =>
      let n := Z.pos m * 100 in
      let cents := if 0 <=? e then n * 2 ^ e
                   else (2 * n + 2 ^ (- e)) / (2 * 2 ^ (- e)) in
      let r := (float64_of_int cents / 100)%float in
      if sign then (- r)%float else r
  | _ => x
  end.

(** ** A store and a random source to run the handlers on

    [MemStore] keeps the four tables in memory. Each call first takes the
    head of [failing]: [true] makes the call fail as a saturated pool does.
    A sample of an empty table is [ErrNoRows]; a row whose reference is
    [uuid.Nil] goes to the store as NULL and is refused. *)

Definition ErrNoRows : error := mkError "pg: no rows in result set".
Definition ErrPool : error := mkError "pg: connection pool timeout".
Definition ErrNotNull : error := mkError "ERROR #23502 null value violates not-null constraint".
Definition ErrUnsupported : error := mkError "unsupported query".

Module MemStore.
Record t := mk {
  failing : list bool;
  next_id : N;
  users : list User.t;
  products : list Product.t;
  orders : list Order.t;
  reviews : list Review.t }.

Definition tick (st : t) : bool * t :=
  match failing st with
  | [] => (false, st)
  | b :: rest => (b, mk rest (next_id st) (users st) (products st) (orders st) (reviews st))
  end.

Definition orders_of (pid : UUID) (st : t) : list Order.t :=
  filter (fun o => N.eqb (Order.ProductID o) pid) (orders st).

Definition review_row (st : t) (r : Review.t) : list ReviewRow.t :=
  match find (fun u => N.eqb (User.ID u) (Review.UserID r)) (users st) with
  | Some u => [ReviewRow.mk (User.Name u) (Review.Rating r) (Review.Content r)]
  | None => []
  end.

Definition answer (k : scan) (q : query) (st : t) : scanT k -> scanT k * option error :=
  match k, q with
  | SProduct, SelectRandomProduct =>
      fun dest => match products st with
                  | p :: _ => (p, None)
                  | [] => (dest, Some ErrNoRows)
                  end
  | SUser, SelectRandomUser =>
      fun dest => match users st with
                  | u :: _ => (u, None)
                  | [] => (dest, Some ErrNoRows)
                  end
  | SCount, CountOrders pid =>
      fun _ => (CountResult.mk (len (orders_of pid st)), None)
  | SCount, CountUniqueUsers pid =>
      fun _ => (CountResult.mk (len (nodup N.eq_dec (map Order.UserID (orders_of pid st)))), None)
  | SReviewRows, SelectReviews pid =>
      fun _ => (flat_map (review_row st)
                  (filter (fun r => N.eqb (Review.ProductID r) pid) (reviews st)), None)
  | _, _ => fun dest => (dest, Some ErrUnsupported)
  end.

Definition query (k : scan) (dest : scanT k) (q : query) (st : t)
  : scanT k * option error * t :=
  let '(fail, st) := tick st in
  if fail then (dest, Some ErrPool, st) else (answer k q st dest, st).

Definition has_refs (user_id product_id : UUID) : bool :=
  negb (N.eqb user_id uuid_Nil) && negb (N.eqb product_id uuid_Nil).

Definition ids_from (st : t) : nat -> UUID := fun i => (next_id st + N.of_nat i)%N.

Definition insert (b : batch) (st : t) : (error + (nat -> UUID)) * t :=
  let '(fail, st) := tick st in
  if fail then (inl ErrPool, st) else
  let ids := ids_from st in
  let next n := (next_id st + N.of_nat n)%N in
  let keyed {A} (setID : UUID -> A -> A) (rows : list A) := assign_ids setID ids 0 rows in
  match b with
  | BUsers rows =>
      (inr ids, mk (failing st) (next (List.length rows))
                   (users st ++ keyed User.setID rows) (products st) (orders st) (reviews st))
  | BProducts rows =>
      (inr ids, mk (failing st) (next (List.length rows))
                   (users st) (products st ++ keyed Product.setID rows) (orders st) (reviews st))
  | BOrders rows =>
      if forallb (fun o => has_refs (Order.UserID o) (Order.ProductID o)) rows
      then (inr ids, mk (failing st) (next (List.length rows))
                        (users st) (products st) (orders st ++ keyed Order.setID rows) (reviews st))
      else (inl ErrNotNull, st)
  | BReviews rows =>
      if forallb (fun r => has_refs (Review.UserID r) (Review.ProductID r)) rows
      then (inr ids, mk (failing st) (next (List.length rows))
                        (users st) (products st) (orders st) (reviews st ++ keyed Review.setID rows))
      else (inl ErrNotNull, st)
  | BOrder o =>
      if has_refs (Order.UserID o) (Order.ProductID o)
      then (inr ids, mk (failing st) (next 1%nat)
                        (users st) (products st) (orders st ++ [Order.setID (ids 0%nat) o]) (reviews st))
      else (inl ErrNotNull, st)
  | BReview r =>
      if has_refs (Review.UserID r) (Review.ProductID r)
      then (inr ids, mk (failing st) (next 1%nat)
                        (users st) (products st) (orders st) (reviews st ++ [Review.setID (ids 0%nat) r]))
      else (inl ErrNotNull, st)
  end.

Definition exec (_ : statement) (st : t) : option error * t :=
  let '(fail, st) := tick st in
  if fail then (Some ErrPool, st) else (None, st).

Definition empty (failing : list bool) : t := mk failing 1%N [] [] [] [].
End MemStore.

#[export] Instance MemStore_PgDB : PgDB MemStore.t := {
  pgQueryOne := MemStore.query;
  pgQuery := MemStore.query;
  pgInsert := MemStore.insert;
  pgExec := MemStore.exec }.

(** [Script] answers the raw draws from a list (0 when it is used up) and
    everything else with fixed content. *)
Module Script.
Record t := mk { draws : list N; price : float64; clock : Time }.

Definition uint64 (g : t) : N * t :=
  match draws g with
  | [] => (0%N, g)
  | d :: rest => (d, mk rest (price g) (clock g))
  end.

Definition now (g : t) : Time * t := (clock g, mk (draws g) (price g) (clock g + 1)).
End Script.

#[export] Instance Script_Faker : Faker Script.t := {
  fkUint64 := Script.uint64;
  fkName g := ("Ada Lovelace", g);
  fkAddress g := (AddressInfo.mk "1 Main Street" "Springfield" "Freedonia", g);
  fkProductName g := ("Swift Gadget", g);
  fkProductDescription g := ("A gadget.", g);
  fkPrice _ _ g := (Script.price g, g);
  fkParagraph _ _ _ _ g := ("Lorem ipsum.", g);
  fkDateRange from _ g := (from, g);
  fkNow := Script.now;
  fkAddDate years months days t := t + 86400 * (365 * years + 30 * months + days) }.

(** The [float64] written [1.1] in Go: the nearest to 11/10. *)
Definition price_1_10 : float64 := (11 / 10)%float.

(** A shop with one user and one product at 1.10. *)
Definition shop (failing : list bool) : MemStore.t :=
  MemStore.mk failing 3%N
    [User.mk 1%N "Ada Lovelace" "1 Main Street, Springfield, Freedonia"]
    [Product.mk 2%N "Swift Gadget" "A gadget." price_1_10]
    [] [].

Definition world (store : MemStore.t) (draws : list N) : State MemStore.t Script.t :=
  mkState store (Script.mk draws price_1_10 1700000000) [].

(** ** What a run of the seed guarantees *)

(** What [newOrder] and [newReview] guarantee of a row, given the slices
    they sample from. *)
Definition order_from (us : list User.t) (ps : list Product.t) (o : Order.t) : Prop :=
  exists u p,
    In u us /\ In p ps /\
    Order.UserID o = User.ID u /\ Order.ProductID o = Product.ID p /\
    1 <= Order.Quantity o <= 10 /\
    Order.TotalPrice o = (float64_of_int (Order.Quantity o) * Product.Price p)%float.

Definition review_from (us : list User.t) (ps : list Product.t) (r : Review.t) : Prop :=
  exists u p,
    In u us /\ In p ps /\
    Review.UserID r = User.ID u /\ Review.ProductID r = Product.ID p /\
    1 <= Review.Rating r <= 100.

(** A run of the body of [seedDatabase]: the slices it ends with and the
    events it emits. [us], [ps], [os], [rs] are the rows as generated and
    submitted; the slices of [loc] are the rows as the inserts left them. *)
Definition seed_run (loc : SeedLocals) (evs : list event) : Prop :=
  exists us ps os rs e1 e2 e3 e4,
    (len us = 2000 /\ len ps = 100 /\ len os = 30000 /\ len rs = 10000) /\
    (inserted (fun ids => assign_ids User.setID ids 0) us (users loc) e1 /\
     inserted (fun ids => assign_ids Product.setID ids 0) ps (products loc) e2 /\
     inserted (fun ids => assign_ids Order.setID ids 0) os (orders loc) e3 /\
     inserted (fun ids => assign_ids Review.setID ids 0) rs (reviews loc) e4) /\
    (Forall (order_from (users loc) (products loc)) os /\
     Forall (review_from (users loc) (products loc)) rs) /\
    evs =
      EvInsert (BUsers us) e1 :: log_if "error inserting users: %v" e1
      ++ EvLog "Inserted %d users" [AInt (len (users loc))]
      :: EvInsert (BProducts ps) e2 :: log_if "error inserting products: %v" e2
      ++ EvLog "Inserted %d products" [AInt (len (products loc))]
      :: EvInsert (BOrders os) e3 :: log_if "error inserting orders: %v" e3
      ++ EvLog "Inserted %d orders" [AInt (len (orders loc))]
      :: EvInsert (BReviews rs) e4 :: log_if "error inserting reviews: %v" e4
      ++ [EvLog "Inserted %d reviews" [AInt (len (reviews loc))]].

(** ** Start-up configuration (main.go, lines 60-80) *)

(** The environment of the process: the first entry of a name is the one
    [os.Getenv] reads; a name that is not set reads as the empty string. *)
Definition Environ := list (string * string).

Fixpoint Getenv (env : Environ) (key : string) : string :=
  match env with
  | [] => ""
  | (k, v) :: rest => if String.eqb k key then v else Getenv rest key
  end.

(** [mustEnv] (main.go, lines 61-67). *)
Definition mustEnv (env : Environ) (key : string) : outcome string :=
  let val := Getenv env key in
  if String.eqb val "" then Panicked ("missing required environment variable: " ++ key)%string
  else Done val.

(** The fields of [pg.Options] the program sets. *)
Module Options.
Record t := mk { Addr : string; User : string; Password : string; Database : string }.
End Options.

Definition and_then {A B} (r : outcome A) (k : A -> outcome B) : outcome B :=
  match r with
  | Done a => k a
  | Panicked msg => Panicked msg
  end.

(** [pgOptionsFromEnv] (main.go, lines 69-80). *)
Definition pgOptionsFromEnv (env : Environ) : outcome Options.t :=
  and_then (mustEnv env "POSTGRES_ADDR") (fun addr =>
  and_then (mustEnv env "POSTGRES_USER") (fun user =>
  and_then (mustEnv env "POSTGRES_PASSWORD") (fun password =>
  and_then (mustEnv env "POSTGRES_DB") (fun database =>
  Done (Options.mk addr user password database))))).

(** The variables [pgOptionsFromEnv] requires, in the order it reads them. *)
Definition required_env : list string :=
  ["POSTGRES_ADDR"; "POSTGRES_USER"; "POSTGRES_PASSWORD"; "POSTGRES_DB"].

(** ** Further observations on a run *)

(** The log lines, in order. *)
Fixpoint logs (evs : list event) : list (string * list logarg) :=
  match evs with
  | [] => []
  | EvLog format args :: rest => (format, args) :: logs rest
  | _ :: rest => logs rest
  end.

(** The statements executed on the store, in order. *)
Fixpoint execs (evs : list event) : list statement :=
  match evs with
  | [] => []
  | EvExec st _ :: rest => st :: execs rest
  | _ :: rest => execs rest
  end.

(** The status codes passed to [WriteHeader], in order. *)
Fixpoint headers (evs : list event) : list Z :=
  match evs with
  | [] => []
  | EvWriteHeader code :: rest => code :: headers rest
  | _ :: rest => headers rest
  end.

(** The tables the columns of a statement refer to. *)
Definition referenced_tables (st : statement) : list string :=
  flat_map (fun c => match col_references c with
                     | Some (table, _) => [table]
                     | None => []
                     end) (columns_of st).

(** Every table a statement refers to is created by an earlier statement of
    the list ([created] holds the tables created before the list). *)
Fixpoint references_created_before (created : list string) (sts : list statement) : bool :=
  match sts with
  | [] => true
  | st :: rest =>
      forallb (fun table => existsb (String.eqb table) created) (referenced_tables st)
      && references_created_before
           (match st with
            | CreateTable name _ => name :: created
            | CreateExtension _ => created
            end) rest
  end.

(** The batches of a seed run carry no key of their own. *)
Definition zero_ids (evs : list event) : Prop :=
  exists us ps os rs,
    inserts evs = [BUsers us; BProducts ps; BOrders os; BReviews rs] /\
    Forall (fun u => User.ID u = uuid_Nil) us /\
    Forall (fun p => Product.ID p = uuid_Nil) ps /\
    Forall (fun o => Order.ID o = uuid_Nil) os /\
    Forall (fun r => Review.ID r = uuid_Nil) rs.

(** ** What the store keeps of a total price

    [price] and [total_price] are NUMERIC(10, 2) columns (main.go, lines 335
    and 349). PostgreSQL rounds a value assigned to a NUMERIC(p, s) column to
    s decimals, halves away from zero, and refuses it when it needs more
    than p digits. [numeric_units s x] is the rounded value of the [float64]
    [x], counted in units of 10^-s (cents for s = 2); a finite [float64] is
    [m * 2^e]. *)
Definition numeric_units (scale : Z) (x : float64) : option Z :=
  match Prim2SF x with
  | S754_zero _ => Some 0
  | S754_finite sign m e =>
      let n := Z.pos m * 10 ^ scale in
      let k := if 0 <=? e then n * 2 ^ e
               else (2 * n + 2 ^ (- e)) / (2 * 2 ^ (- e)) in
      Some (if sign then - k else k)
  | _ => None
  end.

Definition numeric_stores (precision scale : Z) (x : float64) : option Z :=
  match numeric_units scale x with
  | Some k => if Z.abs k <? 10 ^ precision then Some k else None
  | None => None
  end.

(** What a column keeps of a [float64]; only NUMERIC columns take one. *)
Definition column_stores (c : column) (x : float64) : option Z :=
  match col_type c with
  | TNUMERIC precision scale => numeric_stores precision scale x
  | _ => None
  end.

(** The total price the orders table keeps for an Order it accepts, in cents. *)
Definition stored_total_price (o : Order.t) : option Z :=
  match find_column "total_price" orders_table with
  | Some c => column_stores c (Order.TotalPrice o)
  | None => None
  end.

(** The [float64] of the two-decimal price of [c] cents: what the program
    reads from a NUMERIC(10, 2) column, and what the price generator of the
    seed gives ([math.Floor(x*100) / 100]). *)
Definition price_of_cents (c : Z) : float64 := (float64_of_int c / 100)%float.

(** The product the first query of a run left in its destination. *)
Definition sampled_product (evs : list event) : option Product.t :=
  match evs with
  | EvQueryOne k _ got _ :: _ =>
      match k return scanT k -> option Product.t with
      | SProduct => fun p => Some p
      | _ => fun _ => None
      end got
  | _ => None
  end.

(** [numeric_units] with shifts, for computing. *)
Definition numeric_units_shift (scale : Z) (x : float64) : option Z :=
  match Prim2SF x with
  | S754_zero _ => Some 0
  | S754_finite sign m e =>
      let n := Z.pos m * 10 ^ scale in
      let k := if 0 <=? e then Z.shiftl n e
               else Z.shiftr (2 * n + Z.shiftl 1 (- e)) (1 - e) in
      Some (if sign then - k else k)
  | _ => None
  end.

(** [P] on the [fuel] integers from [c] on. *)
Fixpoint all_from (fuel : nat) (c : Z) (P : Z -> bool) : bool :=
  match fuel with
  | O => true
  | S fuel' => P c && all_from fuel' (c + 1) P
  end.

(** The column keeps [q * c] cents of the product of [q] and the price of
    [c] cents. *)
Definition cents_exact (c q : Z) : bool :=
  match numeric_units_shift 2 (float64_of_int q * price_of_cents c)%float with
  | Some k => k =? q * c
  | None => false
  end.

(** ** The references of the seeded rows *)

(** The Orders and the Reviews submitted in a run. *)
Definition submitted_orders (evs : list event) : list Order.t :=
  flat_map (fun b => match b with
                     | BOrders rows => rows
                     | BOrder row => [row]
                     | _ => []
                     end) (inserts evs).

Definition submitted_reviews (evs : list event) : list Review.t :=
  flat_map (fun b => match b with
                     | BReviews rows => rows
                     | BReview row => [row]
                     | _ => []
                     end) (inserts evs).

(** The keys the store returned for a batch of [n] rows. *)
Definition keys (ids : nat -> UUID) (n : nat) : list UUID := map ids (seq 0 n).

(** Whether a key is the key of a row of the in-memory store. *)
Definition user_stored (st : MemStore.t) (id : UUID) : bool :=
  existsb (fun u => N.eqb (User.ID u) id) (MemStore.users st).

(** * Proofs *)

(** ** The rules of the program logic *)

Section Logic.
Context {DB G : Type} {pg : PgDB DB} {fk : Faker G}.

#[local] Abbreviation Prog := (M DB G).

Lemma safe_ret {A} (a : A) (Q : A -> list event -> Prop) :
  Q a [] -> safe (ret a : Prog A) Q.
Proof.
  intros HQ s. exists a, [], s. rewrite app_nil_r. auto.
Qed.

Lemma safe_bind {A B} (m : Prog A) (f : A -> Prog B) (Q : B -> list event -> Prop) :
  safe m (fun a e1 => safe (f a) (fun b e2 => Q b (e1 ++ e2))) ->
  safe (bind m f) Q.
Proof.
  intros Hm s. destruct (Hm s) as (a & e1 & s1 & Hrun & Htr & Hf).
  destruct (Hf s1) as (b & e2 & s2 & Hrun2 & Htr2 & HQ).
  exists b, (e1 ++ e2), s2. unfold bind. rewrite Hrun, Hrun2, Htr2, Htr, app_assoc. auto.
Qed.

Lemma safe_mono {A} (m : Prog A) (P Q : A -> list event -> Prop) :
  safe m P -> (forall a evs, P a evs -> Q a evs) -> safe m Q.
Proof.
  intros Hm HPQ s. destruct (Hm s) as (a & evs & s' & ? & ? & ?).
  exists a, evs, s'. auto.
Qed.

Lemma safe_emit (e : event) (Q : unit -> list event -> Prop) :
  Q tt [e] -> safe (emit e : Prog unit) Q.
Proof.
  intros HQ s. eexists tt, [e], _. unfold emit. split; [reflexivity|]. auto.
Qed.

Lemma safe_log_if (format : string) (err : option error) (Q : unit -> list event -> Prop) :
  Q tt (log_if format err) ->
  safe (match err with
        | Some e => Printf format [AErr e]
        | None => ret tt
        end : Prog unit) Q.
Proof.
  destruct err; intros HQ; [apply safe_emit | apply safe_ret]; exact HQ.
Qed.

Lemma safe_fake {A} (f : G -> A * G) (Q : A -> list event -> Prop) :
  (forall a, Q a []) -> safe (fake f : Prog A) Q.
Proof.
  intros HQ s. unfold fake. destruct (f (gen s)) as [a g].
  eexists a, [], _. split; [reflexivity|]. cbn. rewrite app_nil_r. auto.
Qed.

Lemma safe_QueryOne k dest q (Q : scanT k * option error -> list event -> Prop) :
  (forall got err, Q (got, err) [EvQueryOne k q got err]) ->
  safe (QueryOne k dest q : Prog _) Q.
Proof.
  intros HQ s. unfold QueryOne. destruct (pgQueryOne k dest q (db s)) as [[got err] d].
  eexists _, _, _. split; [reflexivity|]. cbn. auto.
Qed.

Lemma safe_QueryContext k dest q (Q : scanT k * option error -> list event -> Prop) :
  (forall got err, Q (got, err) [EvQuery k q got err]) ->
  safe (QueryContext k dest q : Prog _) Q.
Proof.
  intros HQ s. unfold QueryContext. destruct (pgQuery k dest q (db s)) as [[got err] d].
  eexists _, _, _. split; [reflexivity|]. cbn. auto.
Qed.

Lemma safe_ExecContext st (Q : option error -> list event -> Prop) :
  (forall err, Q err [EvExec st err]) ->
  safe (ExecContext st : Prog _) Q.
Proof.
  intros HQ s. unfold ExecContext. destruct (pgExec st (db s)) as [err d].
  eexists _, _, _. split; [reflexivity|]. cbn. auto.
Qed.

Lemma safe_Insert {A} (wrap : A -> batch) scanID (rows : A)
      (Q : A * option error -> list event -> Prop) :
  (forall rows' err, inserted scanID rows rows' err ->
                     Q (rows', err) [EvInsert (wrap rows) err]) ->
  safe (Insert wrap scanID rows : Prog _) Q.
Proof.
  intros HQ s. unfold Insert. destruct (pgInsert (wrap rows) (db s)) as [[e | ids] d].
  - eexists _, _, _. split; [reflexivity|]. cbn. split; [reflexivity|].
    apply HQ. reflexivity.
  - eexists _, _, _. split; [reflexivity|]. cbn. split; [reflexivity|].
    apply HQ. exists ids. reflexivity.
Qed.

Lemma safe_Intn (n : Z) (Q : Z -> list event -> Prop) :
  0 < n -> (forall r, 0 <= r < n -> Q r []) -> safe (Intn n : Prog Z) Q.
Proof.
  intros Hn HQ. unfold Intn. destruct (Z.leb_spec n 0); [lia|].
  apply safe_bind, safe_fake. intros r. apply safe_ret. cbn.
  apply HQ. apply Z.mod_pos_bound. lia.
Qed.

Lemma safe_Number (min max : Z) (Q : Z -> list event -> Prop) :
  (forall r, Z.min min max <= r <= Z.max min max -> Q r []) ->
  safe (Number min max : Prog Z) Q.
Proof.
  intros HQ. unfold Number. destruct (Z.eqb_spec min max) as [-> | Hne].
  - apply safe_ret. apply HQ. lia.
  - apply safe_bind, safe_fake. intros r. apply safe_ret. cbn. apply HQ.
    pose proof (Z.mod_pos_bound (Z.of_N r) (Z.max min max - Z.min min max + 1)). lia.
Qed.

Lemma safe_index {A} (l : list A) (i : Z) (Q : A -> list event -> Prop) :
  0 <= i < len l -> (forall a, In a l -> Q a []) -> safe (index l i : Prog A) Q.
Proof.
  intros Hi HQ. unfold index. destruct (Z.ltb_spec i 0); [lia|].
  destruct (nth_error l (Z.to_nat i)) as [a|] eqn:Hnth.
  - apply safe_ret. apply HQ. eapply nth_error_In; eauto.
  - apply nth_error_None in Hnth. unfold len in Hi. lia.
Qed.

Lemma safe_forRange {A} (n : nat) (body : Prog A) (P : A -> Prop) :
  safe body (fun a evs => evs = [] /\ P a) ->
  safe (forRange n body) (fun l evs => evs = [] /\ List.length l = n /\ Forall P l).
Proof.
  intros Hbody. induction n as [|n IH]; cbn [forRange].
  - apply safe_ret. auto.
  - apply safe_bind. eapply safe_mono; [exact Hbody|].
    intros a evs [-> Pa]. apply safe_bind. eapply safe_mono; [exact IH|].
    intros l evs (-> & Hlen & Hall). apply safe_ret. cbn. auto.
Qed.

Lemma safe_make_range {A} (n : Z) (body : Prog A) (P : A -> Prop)
      (Q : list A -> list event -> Prop) :
  0 <= n ->
  safe body (fun a evs => evs = [] /\ P a) ->
  (forall l, len l = n -> Forall P l -> Q l []) ->
  safe (make_range n body) Q.
Proof.
  intros Hn Hbody HQ. unfold make_range.
  eapply safe_mono; [apply safe_forRange; exact Hbody|].
  intros l evs (-> & Hlen & Hall). apply HQ; [unfold len; lia | exact Hall].
Qed.

(** From the logic back to the observations of a run. *)
Lemma safe_run {A} (m : Prog A) (Q : A -> list event -> Prop) :
  safe m Q -> forall s, exists a, result m s = Done a /\ Q a (emitted m s).
Proof.
  intros Hm s. destruct (Hm s) as (a & evs & s' & Hrun & Htr & HQ).
  exists a. unfold result, emitted. rewrite Hrun. cbn [fst snd]. rewrite Htr.
  rewrite skipn_app, skipn_all, Nat.sub_diag. cbn. auto.
Qed.

End Logic.

(** One step of a run: the rule of the logic for the program's head. *)
Ltac run_step :=
  lazymatch goal with
  | |- safe (bind _ _) _ => apply safe_bind
  | |- safe (ret _) _ => apply safe_ret
  | |- safe (match _ with Some _ => Printf _ _ | None => ret tt end) _ => apply safe_log_if
  | |- safe (match ?err with Some _ => _ | None => _ end) _ => destruct err
  | |- safe (QueryOneContext _ _ _) _ => apply safe_QueryOne; intros ? ?
  | |- safe (QueryOne _ _ _) _ => apply safe_QueryOne; intros ? ?
  | |- safe (QueryContext _ _ _) _ => apply safe_QueryContext; intros ? ?
  | |- safe (ExecContext _) _ => apply safe_ExecContext; intros ?
  | |- safe (Printf _ _) _ => apply safe_emit
  | |- safe (Println _) _ => apply safe_emit
  | |- safe (WriteHeader _) _ => apply safe_emit
  | |- safe (Write _) _ => apply safe_emit
  | |- safe (ExecuteTemplate _ _) _ => apply safe_emit
  | |- safe (http_Error _ _) _ => unfold http_Error
  | |- safe (fake _) _ => apply safe_fake; intros ?
  | |- safe (Number _ _) _ => apply safe_Number; intros ? ?
  | |- safe (Insert _ _ _) _ => apply safe_Insert; intros ? ? ?
  end; cbv beta iota.

Ltac run_steps := repeat run_step.

(** ** The traces of the handlers *)

Lemma inserted_Order (o o' : Order.t) (err : option error) :
  inserted (fun ids => Order.setID (ids 0%nat)) o o' err ->
  Order.Quantity o' = Order.Quantity o /\ Order.TotalPrice o' = Order.TotalPrice o.
Proof.
  destruct err; cbn; [intros -> | intros [ids ->]]; auto.
Qed.

Lemma inserted_Review (r r' : Review.t) (err : option error) :
  inserted (fun ids => Review.setID (ids 0%nat)) r r' err ->
  Review.Rating r' = Review.Rating r /\ Review.Content r' = Review.Content r.
Proof.
  destruct err; cbn; [intros -> | intros [ids ->]]; auto.
Qed.

Lemma assign_ids_length {A} (setID : UUID -> A -> A) ids (rows : list A) :
  forall i, List.length (assign_ids setID ids i rows) = List.length rows.
Proof.
  induction rows as [|r rows IH]; intros i; cbn; [reflexivity | now rewrite IH].
Qed.

Lemma inserted_len {A} (setID : UUID -> A -> A) (rows rows' : list A) (err : option error) :
  inserted (fun ids => assign_ids setID ids 0) rows rows' err -> len rows' = len rows.
Proof.
  unfold len. destruct err; cbn; [intros -> | intros [ids ->]]; auto.
  now rewrite assign_ids_length.
Qed.
Arguments inserted_len {A setID rows rows' err} _.

Section Traces.
Context {DB G : Type} {pg : PgDB DB} {fk : Faker G}.

Lemma handleDBWrite_trace :
  safe (handleDBWrite (DB := DB) (G := G)) (fun _ evs =>
    exists product e1 user e2 quantity now e3 rating content e4,
      1 <= quantity <= 5 /\ 1 <= rating <= 100 /\
      evs =
        EvQueryOne SProduct SelectRandomProduct product e1
          :: log_if "error selecting random product: %v" e1
        ++ EvQueryOne SUser SelectRandomUser user e2
          :: log_if "error selecting random user: %v" e2
        ++ EvInsert (BOrder (Order.mk uuid_Nil (User.ID user) (Product.ID product) quantity
                               (float64_of_int quantity * Product.Price product)%float now)) e3
          :: log_if "error inserting new order: %v" e3
        ++ EvInsert (BReview (Review.mk uuid_Nil (Product.ID product) (User.ID user)
                                rating content)) e4
          :: log_if "error inserting new review: %v" e4
        ++ [EvRender "write.html"
              (WriteData (Product.Name product) (User.Name user) quantity
                 (float64_of_int quantity * Product.Price product)%float rating content)]).
Proof.
  unfold handleDBWrite, InsertOrder, InsertReview. run_steps.
  match goal with
  | Ho : inserted _ _ _ _, Hr : inserted _ _ _ _ |- _ =>
      apply inserted_Order in Ho as [-> ->]; apply inserted_Review in Hr as [-> ->]
  end.
  do 10 eexists. split; [|split]; [| |cbn; reflexivity]; lia.
Qed.

Lemma handleDBRead_trace :
  safe (handleDBRead (DB := DB) (G := G)) (fun _ evs =>
    exists product,
      let sample := EvQueryOne SProduct SelectRandomProduct product in
      let count_orders := EvQueryOne SCount (CountOrders (Product.ID product)) in
      let count_users := EvQueryOne SCount (CountUniqueUsers (Product.ID product)) in
      let fetch_reviews := EvQuery SReviewRows (SelectReviews (Product.ID product)) in
      let fail format e := [EvLog format [AErr e]; EvWriteHeader StatusInternalServerError] in
      (exists e, evs = sample (Some e) :: fail "error selecting random product: %v" e) \/
      (exists oc e,
          evs = sample None :: count_orders oc (Some e) :: fail "error counting orders: %v" e) \/
      (exists oc uc e,
          evs = sample None :: count_orders oc None :: count_users uc (Some e)
                  :: fail "error counting unique users: %v" e) \/
      (exists oc uc rs e,
          evs = sample None :: count_orders oc None :: count_users uc None
                  :: fetch_reviews rs (Some e) :: fail "error fetching reviews: %v" e) \/
      (exists oc uc rs,
          evs = [sample None; count_orders oc None; count_users uc None;
                 fetch_reviews rs None;
                 EvRender "read.html"
                   (ReadData (Product.Name product) (CountResult.Count oc)
                      (CountResult.Count uc) rs)])).
Proof.
  unfold handleDBRead. run_steps; eexists; cbn zeta.
  - left. eexists. reflexivity.
  - right; left. do 2 eexists. reflexivity.
  - right; right; left. do 3 eexists. reflexivity.
  - right; right; right; left. do 4 eexists. reflexivity.
  - right; right; right; right. do 3 eexists. reflexivity.
Qed.

Lemma setupDatabase_trace :
  safe (setupDatabase (DB := DB) (G := G)) (fun r evs =>
    r = None /\
    exists e1 e2 e3 e4 e5,
      evs =
        EvLog "setupDatabase: got database %v" [ADB]
          :: EvExec uuid_ossp e1 :: log_if "error creating uuid-ossp extension: %v" e1
          ++ EvExec users_table e2 :: log_if "error creating users table: %v" e2
          ++ EvExec products_table e3 :: log_if "error creating products table: %v" e3
          ++ EvExec orders_table e4 :: log_if "error creating orders table: %v" e4
          ++ EvExec reviews_table e5 :: log_if "error creating reviews table: %v" e5
          ++ [EvLog "Database schema created successfully" []]).
Proof.
  unfold setupDatabase. run_steps. split; [reflexivity|].
  do 5 eexists. cbn. reflexivity.
Qed.

(** The loop bodies of [seedDatabase] touch neither the store nor the log. *)
Lemma newUser_safe :
  safe (newUser (DB := DB) (G := G)) (fun _ evs => evs = [] /\ True).
Proof. unfold newUser. run_steps. auto. Qed.

Lemma newProduct_safe :
  safe (newProduct (DB := DB) (G := G)) (fun _ evs => evs = [] /\ True).
Proof. unfold newProduct. run_steps. auto. Qed.

Lemma newOrder_safe (us : list User.t) (ps : list Product.t) :
  0 < len us -> 0 < len ps ->
  safe (newOrder (DB := DB) (G := G) us ps) (fun o evs => evs = [] /\ order_from us ps o).
Proof.
  intros Hus Hps. unfold newOrder.
  apply safe_bind, safe_Intn; [exact Hus|]. intros i Hi. cbv beta.
  apply safe_bind, safe_index; [exact Hi|]. intros u Hu. cbv beta.
  apply safe_bind, safe_Intn; [exact Hps|]. intros j Hj. cbv beta.
  apply safe_bind, safe_index; [exact Hj|]. intros p Hp. cbv beta.
  run_steps. split; [reflexivity|].
  exists u, p. cbn. repeat split; auto; lia.
Qed.

Lemma newReview_safe (us : list User.t) (ps : list Product.t) :
  0 < len us -> 0 < len ps ->
  safe (newReview (DB := DB) (G := G) us ps) (fun r evs => evs = [] /\ review_from us ps r).
Proof.
  intros Hus Hps. unfold newReview.
  apply safe_bind, safe_Intn; [exact Hus|]. intros i Hi. cbv beta.
  apply safe_bind, safe_index; [exact Hi|]. intros u Hu. cbv beta.
  apply safe_bind, safe_Intn; [exact Hps|]. intros j Hj. cbv beta.
  apply safe_bind, safe_index; [exact Hj|]. intros p Hp. cbv beta.
  run_steps. split; [reflexivity|].
  exists u, p. cbn. repeat split; auto; lia.
Qed.

Lemma seedDatabase_body_trace :
  safe (seedDatabase_body (DB := DB) (G := G)) seed_run.
Proof.
  unfold seedDatabase_body, InsertUsers, InsertProducts, InsertOrders, InsertReviews, seed_run.
  apply safe_bind.
  apply safe_make_range with (P := fun _ => True); [lia | apply newUser_safe |].
  intros us Hus _. run_steps.
  apply safe_make_range with (P := fun _ => True); [lia | apply newProduct_safe |].
  intros ps Hps _. run_steps.
  match goal with
  | Hu : inserted _ us ?us' _, Hp : inserted _ ps ?ps' _ |- _ =>
      pose proof (inserted_len Hu) as Hus'; pose proof (inserted_len Hp) as Hps';
      apply safe_make_range with (P := order_from us' ps');
      [lia | apply newOrder_safe; lia |]
  end.
  intros os Hos Hall_os. run_steps.
  match goal with
  | Hu : inserted _ us ?us' _, Hp : inserted _ ps ?ps' _ |- _ =>
      apply safe_make_range with (P := review_from us' ps');
      [lia | apply newReview_safe; lia |]
  end.
  intros rs Hrs Hall_rs. run_steps.
  exists us, ps, os, rs. do 4 eexists.
  split; [auto|]. split; [eauto|]. split; [auto|]. cbn. reflexivity.
Qed.

End Traces.

(** ** The response behind store and log events *)

Lemma status_of_backstage (pre rest : list event) :
  forallb backstage pre = true -> status_of (pre ++ rest) = status_of rest.
Proof.
  induction pre as [|e pre IH]; cbn; [reflexivity|].
  intros H. apply andb_prop in H as [He Hpre].
  destruct e; cbn in He; try discriminate; auto.
Qed.

Lemma body_of_backstage (pre rest : list event) :
  forallb backstage pre = true -> body_of (pre ++ rest) = body_of rest.
Proof.
  induction pre as [|e pre IH]; cbn; [reflexivity|].
  intros H. apply andb_prop in H as [He Hpre].
  destruct e; cbn in He; try discriminate; auto.
Qed.

Lemma seed_run_backstage (loc : SeedLocals) (evs : list event) :
  seed_run loc evs -> forallb backstage evs = true.
Proof.
  intros (us & ps & os & rs & e1 & e2 & e3 & e4 & _ & _ & _ & ->).
  destruct e1, e2, e3, e4; reflexivity.
Qed.

Lemma seed_run_inserts (loc : SeedLocals) (evs : list event) :
  seed_run loc evs ->
  exists us ps os rs,
    inserts evs = [BUsers us; BProducts ps; BOrders os; BReviews rs] /\
    (len us = 2000 /\ len ps = 100 /\ len os = 30000 /\ len rs = 10000) /\
    Forall (order_from (users loc) (products loc)) os /\
    Forall (review_from (users loc) (products loc)) rs.
Proof.
  intros (us & ps & os & rs & e1 & e2 & e3 & e4 & Hlen & _ & [Hos Hrs] & ->).
  exists us, ps, os, rs. repeat split; try tauto.
  destruct e1, e2, e3, e4; reflexivity.
Qed.

Section HandlerTraces.
Context {DB G : Type} {pg : PgDB DB} {fk : Faker G}.

Lemma seedDatabase_trace :
  safe (seedDatabase (DB := DB) (G := G))
       (fun r evs => r = None /\ exists loc, seed_run loc evs).
Proof.
  unfold seedDatabase. apply safe_bind.
  eapply safe_mono; [apply seedDatabase_body_trace|].
  intros loc evs Hrun. cbv beta. apply safe_ret.
  rewrite app_nil_r. split; [reflexivity | exists loc; exact Hrun].
Qed.

(** [seedDatabase] emits what its body emits. *)
Lemma seedDatabase_emits_body (s : State DB G) :
  emitted seedDatabase s = emitted seedDatabase_body s.
Proof.
  unfold seedDatabase, emitted, bind, ret.
  destruct (seedDatabase_body s) as [[loc | msg] s']; reflexivity.
Qed.

Lemma setupDatabase_backstage :
  safe (setupDatabase (DB := DB) (G := G))
       (fun r evs => r = None /\ forallb backstage evs = true).
Proof.
  eapply safe_mono; [apply setupDatabase_trace|].
  intros r evs (-> & e1 & e2 & e3 & e4 & e5 & ->). split; [reflexivity|].
  destruct e1, e2, e3, e4, e5; reflexivity.
Qed.

Lemma handleFirstRun_trace :
  safe (handleFirstRun (DB := DB) (G := G)) (fun _ evs =>
    exists pre, forallb backstage pre = true /\
                evs = pre ++ [EvWriteHeader StatusOK; EvWrite "Database created successfully"]).
Proof.
  unfold handleFirstRun. apply safe_bind.
  eapply safe_mono; [apply setupDatabase_backstage|].
  intros r pre [-> Hpre]. cbv beta iota. run_steps.
  exists pre. split; [exact Hpre | reflexivity].
Qed.

Lemma handleSeedDB_trace :
  safe (handleSeedDB (DB := DB) (G := G)) (fun _ evs =>
    exists pre, forallb backstage pre = true /\
                evs = pre ++ [EvWriteHeader StatusCreated; EvWrite "Database seeded successfully"]).
Proof.
  unfold handleSeedDB. apply safe_bind.
  eapply safe_mono; [apply seedDatabase_trace|].
  intros r pre [-> [loc Hrun]]. cbv beta iota. run_steps.
  exists pre. split; [eapply seed_run_backstage; exact Hrun | reflexivity].
Qed.

(** An error of the store in [handleDBRead] is logged and answered with a
    server error; nothing is rendered. *)
Lemma handleDBRead_error (s : State DB G) (e : error) :
  In e (store_errors (emitted handleDBRead s)) ->
  logged e (emitted handleDBRead s) /\
  status_of (emitted handleDBRead s) = Some StatusInternalServerError /\
  renders (emitted handleDBRead s) = [].
Proof.
  destruct (safe_run handleDBRead_trace s) as (_ & _ & product & Hcases).
  cbv zeta in Hcases.
  destruct Hcases as [(e0 & ->) | [(oc & e0 & ->) | [(oc & uc & e0 & ->)
                       | [(oc & uc & rs & e0 & ->) | (oc & uc & rs & ->)]]]];
    cbn; intros Hin; try (destruct Hin as [<- | []]); try contradiction.
  all: split; [eexists; cbn; eauto 6 | auto].
Qed.

(** An error of the store in [handleDBWrite] is logged. *)
Lemma handleDBWrite_error (s : State DB G) (e : error) :
  In e (store_errors (emitted handleDBWrite s)) ->
  logged e (emitted handleDBWrite s).
Proof.
  destruct (safe_run handleDBWrite_trace s)
    as (_ & _ & product & e1 & user & e2 & q & now & e3 & rating & content & e4 & _ & _ & ->).
  destruct e1, e2, e3, e4; cbn; intros Hin;
    repeat (destruct Hin as [<- | Hin]); try contradiction;
    eexists; cbn; eauto 12.
Qed.

End HandlerTraces.

(** ** The write workload *)

Section WriteWorkload.
Context {DB G : Type} {pg : PgDB DB} {fk : Faker G}.

(** C8: in every invocation of the write-workload handler the store sees
    exactly two inserts, the Order first and the Review second. *)
Theorem handleDBWrite_order_insert_then_review_insert :
  forall s : State DB G,
    result handleDBWrite s = Done tt /\
    exists o r, inserts (emitted handleDBWrite s) = [BOrder o; BReview r].
Proof.
  intros s.
  destruct (safe_run handleDBWrite_trace s)
    as ([] & Hres & product & e1 & user & e2 & q & now & e3 & rating & content & e4 & _ & _ & ->).
  split; [exact Hres|]. do 2 eexists.
  destruct e1, e2, e3, e4; reflexivity.
Qed.

(** The total price of an Order as the program submits it, in the write
    workload and in the seed, is the [float64] product of [float64(quantity)]
    and the price of the sampled product. *)
Theorem total_price_is_float64_product :
  forall s : State DB G,
    (exists p e1 rest o r,
        emitted handleDBWrite s = EvQueryOne SProduct SelectRandomProduct p e1 :: rest /\
        inserts (emitted handleDBWrite s) = [BOrder o; BReview r] /\
        Order.ProductID o = Product.ID p /\
        Order.TotalPrice o = (float64_of_int (Order.Quantity o) * Product.Price p)%float) /\
    (exists loc us ps os rs,
        result seedDatabase_body s = Done loc /\
        inserts (emitted seedDatabase_body s) = [BUsers us; BProducts ps; BOrders os; BReviews rs] /\
        Forall (fun o => exists p,
                    In p (products loc) /\
                    Order.ProductID o = Product.ID p /\
                    Order.TotalPrice o
                    = (float64_of_int (Order.Quantity o) * Product.Price p)%float) os).
Proof.
  intros s. split.
  - destruct (safe_run handleDBWrite_trace s)
      as (_ & _ & product & e1 & user & e2 & q & now & e3 & rating & content & e4 & _ & _ & ->).
    exists product, e1. do 3 eexists. split; [reflexivity|].
    split; [destruct e1, e2, e3, e4; reflexivity|]. split; reflexivity.
  - destruct (safe_run seedDatabase_body_trace s) as (loc & Hres & Hrun).
    destruct (seed_run_inserts Hrun) as (us & ps & os & rs & Hins & _ & Hos & _).
    exists loc, us, ps, os, rs. repeat split; [exact Hres | exact Hins |].
    eapply Forall_impl; [|exact Hos].
    intros o (u & p & _ & Hp & _ & Hpid & _ & Htotal). exists p. auto.
Qed.

End WriteWorkload.

(** C1, at a store with no product and no user: both samples answer
    [ErrNoRows], and the handler still submits the Order and the Review,
    with [uuid.Nil] for both references; the store refuses them. *)
Theorem handleDBWrite_inserts_after_failed_samples :
  let evs := emitted handleDBWrite (world (MemStore.empty []) []) in
  store_errors evs = [ErrNoRows; ErrNoRows; ErrNotNull; ErrNotNull] /\
  inserts evs
  = [BOrder (Order.mk uuid_Nil uuid_Nil uuid_Nil 1 0%float 1700000000);
     BReview (Review.mk uuid_Nil uuid_Nil uuid_Nil 1 "Lorem ipsum.")].
Proof. vm_compute. split; reflexivity. Qed.

(** The [float64] the program submits is not itself a two-decimal value:
    for a product at 1.10 and a quantity of 3 the Order of the write
    workload carries 3.3000000000000003, and so does an Order generated by
    the loop of the seed; the rounding is the column's. *)
Lemma total_price_not_rounded :
  (exists p o r,
      hd_error (emitted handleDBWrite (world (shop []) [2%N]))
      = Some (EvQueryOne SProduct SelectRandomProduct p None) /\
      inserts (emitted handleDBWrite (world (shop []) [2%N])) = [BOrder o; BReview r] /\
      Order.Quantity o = 3 /\
      Product.Price p = price_1_10 /\
      Order.TotalPrice o
      <> round2dp (float64_of_int (Order.Quantity o) * Product.Price p)%float) /\
  (exists o,
      result (newOrder (MemStore.users (shop [])) (MemStore.products (shop [])))
             (world (shop []) [0%N; 0%N; 2%N]) = Done o /\
      Order.Quantity o = 3 /\
      Order.TotalPrice o <> round2dp (float64_of_int (Order.Quantity o) * price_1_10)%float).
Proof.
  split.
  - do 3 eexists. split; [vm_compute; reflexivity|].
    split; [vm_compute; reflexivity|]. cbn [Order.Quantity Order.TotalPrice Product.Price].
    split; [reflexivity|]. split; [reflexivity|].
    intros H. apply (f_equal Prim2SF) in H. vm_compute in H. discriminate H.
  - eexists. split; [vm_compute; reflexivity|].
    cbn [Order.Quantity Order.TotalPrice]. split; [reflexivity|].
    intros H. apply (f_equal Prim2SF) in H. vm_compute in H. discriminate H.
Qed.

(** ** The seed *)

Section Seed.
Context {DB G : Type} {pg : PgDB DB} {fk : Faker G}.

(** C4: a seeding run returns nil and submits four bulk inserts, in this
    order: 2000 users, 100 products, 30000 orders, 10000 reviews. *)
Theorem seedDatabase_batches :
  forall s : State DB G,
    result seedDatabase s = Done None /\
    map batch_shape (inserts (emitted seedDatabase s))
    = [("users", 2000); ("products", 100); ("orders", 30000); ("reviews", 10000)].
Proof.
  intros s. destruct (safe_run seedDatabase_trace s) as (r & Hres & -> & loc & Hrun).
  split; [exact Hres|].
  destruct (seed_run_inserts Hrun) as (us & ps & os & rs & -> & (Hus & Hps & Hos & Hrs) & _).
  cbn [map batch_shape]. rewrite Hus, Hps, Hos, Hrs. reflexivity.
Qed.

(** C7, as the code has it: when the bulk insert of the users errors, the
    seed logs the error and goes on: the products, the orders and the
    reviews are generated and submitted, and the function returns nil. *)
Theorem seedDatabase_goes_on_after_users_error :
  forall s : State DB G,
    exists us e1 rest,
      emitted seedDatabase s
      = EvInsert (BUsers us) e1 :: log_if "error inserting users: %v" e1 ++ rest /\
      map batch_shape (inserts rest)
      = [("products", 100); ("orders", 30000); ("reviews", 10000)] /\
      result seedDatabase s = Done None.
Proof.
  intros s. destruct (safe_run seedDatabase_trace s) as (r & Hres & -> & loc & Hrun).
  destruct Hrun as (us & ps & os & rs & e1 & e2 & e3 & e4 & Hlen & _ & _ & ->).
  destruct Hlen as (Hus & Hps & Hos & Hrs).
  exists us, e1. eexists. split; [reflexivity|]. split; [|exact Hres].
  destruct e2, e3, e4; cbn [inserts app log_if map batch_shape];
    rewrite Hps, Hos, Hrs; reflexivity.
Qed.

End Seed.

(** C7 as stated fails: with a store whose first call (the insert of the
    users) errors, the seed still submits the products, the orders and the
    reviews, and returns nil. *)
Lemma seedDatabase_not_aborted_by_users_error :
  let s := world (MemStore.empty [true]) [] in
  insert_outcomes (emitted seedDatabase s)
  = [("users", Some ErrPool); ("products", None);
     ("orders", Some ErrNotNull); ("reviews", Some ErrNotNull)] /\
  result seedDatabase s = Done None.
Proof. vm_compute. split; reflexivity. Qed.

(** ** The read workload and the errors of the store *)

Section ReadWorkload.
Context {DB G : Type} {pg : PgDB DB} {fk : Faker G}.

(** C5: the read-workload handler first samples a product; every later
    query carries the ID of that product; when the sample fails no later
    query is issued, the status is 500 and nothing is rendered; when any
    query fails the error is logged, the status is 500 and nothing is
    rendered; when none fails the three dependent queries run in order and
    the page is rendered. *)
Theorem handleDBRead_one_product_or_server_error :
  forall s : State DB G,
    exists product e1 rest,
      emitted handleDBRead s
      = EvQueryOne SProduct SelectRandomProduct product e1 :: rest /\
      Forall (fun q => query_product q = Some (Product.ID product)) (queries rest) /\
      (e1 <> None ->
       queries rest = [] /\
       status_of (emitted handleDBRead s) = Some StatusInternalServerError /\
       renders (emitted handleDBRead s) = []) /\
      (forall e, In e (store_errors (emitted handleDBRead s)) ->
                 logged e (emitted handleDBRead s) /\
                 status_of (emitted handleDBRead s) = Some StatusInternalServerError /\
                 renders (emitted handleDBRead s) = []) /\
      (store_errors (emitted handleDBRead s) = [] ->
       queries rest = [CountOrders (Product.ID product);
                       CountUniqueUsers (Product.ID product);
                       SelectReviews (Product.ID product)] /\
       exists data, renders (emitted handleDBRead s) = [("read.html", data)]).
Proof.
  intros s. pose proof (handleDBRead_error s) as Herr.
  destruct (safe_run handleDBRead_trace s) as (_ & _ & product & Hcases).
  cbv zeta in Hcases. exists product.
  destruct Hcases as [(e0 & Hev) | [(oc & e0 & Hev) | [(oc & uc & e0 & Hev)
                       | [(oc & uc & rs & e0 & Hev) | (oc & uc & rs & Hev)]]]];
    rewrite Hev in *; do 2 eexists; (split; [reflexivity|]);
    (split; [cbn; repeat constructor|]);
    (split; [intros Hne; cbn; try contradiction; auto|]);
    (split; [exact Herr|]); cbn; intros Hnil; try discriminate Hnil.
  split; [reflexivity | eexists; reflexivity].
Qed.

(** In both workload handlers an error of the store is logged; in the read
    handler the caller then receives the status 500. *)
Theorem workload_store_errors_are_logged :
  forall (s : State DB G) (e : error),
    (In e (store_errors (emitted handleDBRead s)) ->
     logged e (emitted handleDBRead s) /\
     status_of (emitted handleDBRead s) = Some StatusInternalServerError) /\
    (In e (store_errors (emitted handleDBWrite s)) ->
     logged e (emitted handleDBWrite s)).
Proof.
  intros s e. split.
  - intros Hin. destruct (handleDBRead_error s e Hin) as (Hlog & Hst & _). auto.
  - apply handleDBWrite_error.
Qed.

End ReadWorkload.

Lemma handleDBRead_one_product_or_server_error_witness :
  status_of (emitted handleDBRead (world (shop [false; true]) []))
  = Some StatusInternalServerError.
Proof.
  destruct (handleDBRead_one_product_or_server_error (world (shop [false; true]) []))
    as (product & e1 & rest & _ & _ & _ & Herr & _).
  apply (Herr ErrPool). vm_compute. left. reflexivity.
Defined.

Lemma workload_store_errors_are_logged_witness :
  logged ErrPool (emitted handleDBRead (world (shop [false; true]) [])) /\
  logged ErrPool (emitted handleDBWrite (world (shop [false; false; true]) [2%N; 41%N])).
Proof.
  split.
  - apply (workload_store_errors_are_logged (world (shop [false; true]) []) ErrPool).
    vm_compute. left. reflexivity.
  - apply (workload_store_errors_are_logged (world (shop [false; false; true]) [2%N; 41%N]) ErrPool).
    vm_compute. left. reflexivity.
Defined.

(** C6, at a store whose third call (the insert of the Order) fails: the
    write-workload handler logs the error, goes on, and the caller receives
    the confirmation page with status 200 instead of a server error. *)
Lemma handleDBWrite_store_error_answered_with_200 :
  let evs := emitted handleDBWrite (world (shop [false; false; true]) [2%N; 41%N]) in
  store_errors evs = [ErrPool] /\
  status_of evs = Some StatusOK /\
  status_of evs <> Some StatusInternalServerError /\
  renders evs
  = [("write.html",
      WriteData "Swift Gadget" "Ada Lovelace" 3 (3 * price_1_10)%float 42 "Lorem ipsum.")].
Proof.
  vm_compute. repeat split; try reflexivity. discriminate.
Qed.

(** ** The schema and the endpoints of setup and seed *)

Section Setup.
Context {DB G : Type} {pg : PgDB DB} {fk : Faker G}.

(** C9, as the code has it: [setupDatabase] creates the reviews table with
    an INTEGER NOT NULL rating that its CHECK keeps in [0,100]; the ratings
    the program generates are in [1,100], so the table takes them. *)
Theorem reviews_rating_between_0_and_100 :
  forall s : State DB G,
    (exists err, In (EvExec reviews_table err) (emitted setupDatabase s)) /\
    find_column "rating" reviews_table = Some rating_column /\
    col_type rating_column = TINTEGER /\
    column_accepts rating_column None = false /\
    (forall v, column_accepts rating_column (Some v) = true <-> 0 <= v <= 100) /\
    (exists o r,
        inserts (emitted handleDBWrite s) = [BOrder o; BReview r] /\
        1 <= Review.Rating r <= 100 /\
        column_accepts rating_column (Some (Review.Rating r)) = true) /\
    (exists us ps os rs,
        inserts (emitted seedDatabase s) = [BUsers us; BProducts ps; BOrders os; BReviews rs] /\
        Forall (fun r => 1 <= Review.Rating r <= 100 /\
                         column_accepts rating_column (Some (Review.Rating r)) = true) rs).
Proof.
  assert (Hcheck : forall v, column_accepts rating_column (Some v) = true <-> 0 <= v <= 100).
  { intros v. cbn. rewrite andb_true_iff, !Z.leb_le. tauto. }
  intros s. split.
  { destruct (safe_run setupDatabase_trace s) as (_ & _ & _ & e1 & e2 & e3 & e4 & e5 & ->).
    exists e5. destruct e1, e2, e3, e4; cbn; auto 20. }
  do 3 (split; [reflexivity|]). split; [exact Hcheck|]. split.
  - destruct (safe_run handleDBWrite_trace s)
      as (_ & _ & product & e1 & user & e2 & q & now & e3 & rating & content & e4 & _ & Hr & ->).
    do 2 eexists. split; [destruct e1, e2, e3, e4; reflexivity|].
    cbn [Review.Rating]. split; [exact Hr | apply Hcheck; lia].
  - destruct (safe_run seedDatabase_trace s) as (_ & _ & _ & loc & Hrun).
    destruct (seed_run_inserts Hrun) as (us & ps & os & rs & Hins & _ & _ & Hrs).
    exists us, ps, os, rs. split; [exact Hins|].
    eapply Forall_impl; [|exact Hrs].
    intros r (u & p & _ & _ & _ & _ & Hr). split; [exact Hr | apply Hcheck; lia].
Qed.

(** C10: [setupDatabase] and [seedDatabase] return nil from every state,
    whatever the store answers; so [handleFirstRun] always answers 200 with
    its success body and [handleSeedDB] always answers 201 with its success
    body. *)
Theorem setup_and_seed_always_answer_success :
  forall s : State DB G,
    result setupDatabase s = Done None /\
    result seedDatabase s = Done None /\
    (result handleFirstRun s = Done tt /\
     status_of (emitted handleFirstRun s) = Some StatusOK /\
     body_of (emitted handleFirstRun s) = ["Database created successfully"]) /\
    (result handleSeedDB s = Done tt /\
     status_of (emitted handleSeedDB s) = Some StatusCreated /\
     body_of (emitted handleSeedDB s) = ["Database seeded successfully"]).
Proof.
  intros s. split; [|split; [|split]].
  - destruct (safe_run setupDatabase_trace s) as (r & Hres & -> & _). exact Hres.
  - destruct (safe_run seedDatabase_trace s) as (r & Hres & -> & _). exact Hres.
  - destruct (safe_run handleFirstRun_trace s) as ([] & Hres & pre & Hpre & ->).
    rewrite status_of_backstage, body_of_backstage by exact Hpre. repeat split. exact Hres.
  - destruct (safe_run handleSeedDB_trace s) as ([] & Hres & pre & Hpre & ->).
    rewrite status_of_backstage, body_of_backstage by exact Hpre. repeat split. exact Hres.
Qed.

End Setup.

(** C9 as stated fails: the CHECK of the rating column takes 0, which is
    outside [1,100]. *)
Lemma reviews_rating_check_takes_zero :
  find_column "rating" reviews_table = Some rating_column /\
  column_accepts rating_column (Some 0) = true /\
  ~ (forall v, column_accepts rating_column (Some v) = true <-> 1 <= v <= 100).
Proof.
  split; [reflexivity|]. split; [reflexivity|].
  intros H. specialize (H 0). cbn in H. destruct H as [H _].
  specialize (H eq_refl). lia.
Qed.

(** ** Start-up configuration *)

Lemma Forall_four {A} (P : A -> Prop) (a b c d : A) :
  Forall P [a; b; c; d] <-> P a /\ P b /\ P c /\ P d.
Proof.
  rewrite !Forall_cons_iff, Forall_nil_iff. tauto.
Qed.

(** X1: [pgOptionsFromEnv] returns options exactly when the four variables
    are all set to a non-empty string, and then each field holds the value
    of its variable. *)
Theorem pgOptionsFromEnv_returns_iff_all_set :
  forall (env : Environ) (o : Options.t),
    pgOptionsFromEnv env = Done o <->
    Forall (fun key => Getenv env key <> "") required_env /\
    o = Options.mk (Getenv env "POSTGRES_ADDR") (Getenv env "POSTGRES_USER")
                   (Getenv env "POSTGRES_PASSWORD") (Getenv env "POSTGRES_DB").
Proof.
  intros env o. unfold required_env. rewrite Forall_four.
  unfold pgOptionsFromEnv, mustEnv, and_then.
  destruct (String.eqb_spec (Getenv env "POSTGRES_ADDR") "") as [Ha | Ha];
    [split; [discriminate | tauto]|].
  destruct (String.eqb_spec (Getenv env "POSTGRES_USER") "") as [Hu | Hu];
    [split; [discriminate | tauto]|].
  destruct (String.eqb_spec (Getenv env "POSTGRES_PASSWORD") "") as [Hp | Hp];
    [split; [discriminate | tauto]|].
  destruct (String.eqb_spec (Getenv env "POSTGRES_DB") "") as [Hd | Hd];
    [split; [discriminate | tauto]|].
  split.
  - intros H. injection H as <-. auto.
  - intros [_ ->]. reflexivity.
Qed.

(** X2: [pgOptionsFromEnv] panics exactly when one of the four variables is
    unset or empty, and the message names the first such variable in the
    order POSTGRES_ADDR, POSTGRES_USER, POSTGRES_PASSWORD, POSTGRES_DB. *)
Theorem pgOptionsFromEnv_panics_on_first_missing :
  forall (env : Environ) (msg : string),
    pgOptionsFromEnv env = Panicked msg <->
    exists key,
      find (fun key => String.eqb (Getenv env key) "") required_env = Some key /\
      msg = ("missing required environment variable: " ++ key)%string.
Proof.
  intros env msg. unfold required_env, pgOptionsFromEnv, mustEnv, and_then. cbn [find].
  destruct (String.eqb (Getenv env "POSTGRES_ADDR") "");
    [|destruct (String.eqb (Getenv env "POSTGRES_USER") "");
      [|destruct (String.eqb (Getenv env "POSTGRES_PASSWORD") "");
        [|destruct (String.eqb (Getenv env "POSTGRES_DB") "")]]].
  1-4: split; [intros H; injection H as <-; eexists; split; reflexivity
              | intros (key & Hk & ->); injection Hk as <-; reflexivity].
  split; [discriminate | intros (key & Hk & _); discriminate].
Qed.

(** ** Further properties of the write workload *)

Section WriteWorkloadMore.
Context {DB G : Type} {pg : PgDB DB} {fk : Faker G}.

(** X3: whatever the store answers, [handleDBWrite] never calls
    [WriteHeader]: it renders write.html once and the caller receives 200. *)
Theorem handleDBWrite_always_answers_200 :
  forall s : State DB G,
    headers (emitted handleDBWrite s) = [] /\
    status_of (emitted handleDBWrite s) = Some StatusOK /\
    exists data, renders (emitted handleDBWrite s) = [("write.html", data)].
Proof.
  intros s.
  destruct (safe_run handleDBWrite_trace s)
    as (_ & _ & product & e1 & user & e2 & q & now & e3 & rating & content & e4 & _ & _ & ->).
  destruct e1, e2, e3, e4; cbn; repeat split; eexists; reflexivity.
Qed.

(** X4: the Order and the Review of one invocation refer to the same
    product and the same user, the ones the two samples left in [product]
    and [user]; both rows are submitted with a zero ID, the key being left
    to the store. *)
Theorem handleDBWrite_rows_refer_to_the_samples :
  forall s : State DB G,
    exists product e1 user e2 o r,
      In (EvQueryOne SProduct SelectRandomProduct product e1) (emitted handleDBWrite s) /\
      In (EvQueryOne SUser SelectRandomUser user e2) (emitted handleDBWrite s) /\
      inserts (emitted handleDBWrite s) = [BOrder o; BReview r] /\
      (Order.ID o = uuid_Nil /\ Review.ID r = uuid_Nil) /\
      (Order.ProductID o = Product.ID product /\ Review.ProductID r = Product.ID product) /\
      (Order.UserID o = User.ID user /\ Review.UserID r = User.ID user).
Proof.
  intros s.
  destruct (safe_run handleDBWrite_trace s)
    as (_ & _ & product & e1 & user & e2 & q & now & e3 & rating & content & e4 & _ & _ & ->).
  exists product, e1, user, e2. do 2 eexists.
  split; [left; reflexivity|].
  split; [destruct e1; cbn; auto|].
  split; [destruct e1, e2, e3, e4; reflexivity|].
  cbn. auto.
Qed.

(** X5: the page [handleDBWrite] renders shows the names of the sampled
    product and user and the quantity, total price, rating and content of
    the rows it submitted, whether or not the inserts succeeded. *)
Theorem handleDBWrite_renders_what_it_submitted :
  forall s : State DB G,
    exists product e1 user e2 o r,
      In (EvQueryOne SProduct SelectRandomProduct product e1) (emitted handleDBWrite s) /\
      In (EvQueryOne SUser SelectRandomUser user e2) (emitted handleDBWrite s) /\
      inserts (emitted handleDBWrite s) = [BOrder o; BReview r] /\
      renders (emitted handleDBWrite s)
      = [("write.html",
          WriteData (Product.Name product) (User.Name user)
                    (Order.Quantity o) (Order.TotalPrice o)
                    (Review.Rating r) (Review.Content r))].
Proof.
  intros s.
  destruct (safe_run handleDBWrite_trace s)
    as (_ & _ & product & e1 & user & e2 & q & now & e3 & rating & content & e4 & _ & _ & ->).
  exists product, e1, user, e2. do 2 eexists.
  split; [left; reflexivity|].
  split; [destruct e1; cbn; auto|].
  split; destruct e1, e2, e3, e4; reflexivity.
Qed.

(** X6: [handleDBWrite] always issues both samples, the product first and
    the user second, also when the first fails; it executes no statement;
    and its log holds one line for each error of the store, in order, and
    nothing else. *)
Theorem handleDBWrite_samples_and_log :
  forall s : State DB G,
    queries (emitted handleDBWrite s) = [SelectRandomProduct; SelectRandomUser] /\
    execs (emitted handleDBWrite s) = [] /\
    map snd (logs (emitted handleDBWrite s))
    = map (fun e => [AErr e]) (store_errors (emitted handleDBWrite s)).
Proof.
  intros s.
  destruct (safe_run handleDBWrite_trace s)
    as (_ & _ & product & e1 & user & e2 & q & now & e3 & rating & content & e4 & _ & _ & ->).
  destruct e1, e2, e3, e4; repeat split; reflexivity.
Qed.

End WriteWorkloadMore.

(** ** Further properties of the read workload *)

Section ReadWorkloadMore.
Context {DB G : Type} {pg : PgDB DB} {fk : Faker G}.

(** X7: when no call of the store fails, [handleDBRead] issues its four
    queries and renders read.html with the name of the sampled product, the
    two counts and the review rows exactly as the store answered them; the
    caller receives 200 and nothing is logged. *)
Theorem handleDBRead_renders_the_answers :
  forall s : State DB G,
    store_errors (emitted handleDBRead s) = [] ->
    exists product oc uc rs,
      emitted handleDBRead s
      = [EvQueryOne SProduct SelectRandomProduct product None;
         EvQueryOne SCount (CountOrders (Product.ID product)) oc None;
         EvQueryOne SCount (CountUniqueUsers (Product.ID product)) uc None;
         EvQuery SReviewRows (SelectReviews (Product.ID product)) rs None;
         EvRender "read.html"
           (ReadData (Product.Name product) (CountResult.Count oc)
                     (CountResult.Count uc) rs)] /\
      status_of (emitted handleDBRead s) = Some StatusOK.
Proof.
  intros s. destruct (safe_run handleDBRead_trace s) as (_ & _ & product & Hcases).
  cbv zeta in Hcases.
  destruct Hcases as [(e0 & ->) | [(oc & e0 & ->) | [(oc & uc & e0 & ->)
                       | [(oc & uc & rs & e0 & ->) | (oc & uc & rs & ->)]]]];
    cbn; intros Hnil; try discriminate Hnil.
  exists product, oc, uc, rs. split; reflexivity.
Qed.

(** X8: [handleDBRead] never inserts and never executes a statement; it
    issues at most four queries and stops at the first error: at most one
    call fails, and each failure gives one log line and one
    [WriteHeader(500)]. *)
Theorem handleDBRead_reads_only_and_stops_at_first_error :
  forall s : State DB G,
    result handleDBRead s = Done tt /\
    inserts (emitted handleDBRead s) = [] /\
    execs (emitted handleDBRead s) = [] /\
    (List.length (queries (emitted handleDBRead s)) <= 4)%nat /\
    (List.length (store_errors (emitted handleDBRead s)) <= 1)%nat /\
    map snd (logs (emitted handleDBRead s))
    = map (fun e => [AErr e]) (store_errors (emitted handleDBRead s)) /\
    headers (emitted handleDBRead s)
    = map (fun _ => StatusInternalServerError) (store_errors (emitted handleDBRead s)).
Proof.
  intros s. destruct (safe_run handleDBRead_trace s) as ([] & Hres & product & Hcases).
  cbv zeta in Hcases. split; [exact Hres|].
  destruct Hcases as [(e0 & ->) | [(oc & e0 & ->) | [(oc & uc & e0 & ->)
                       | [(oc & uc & rs & e0 & ->) | (oc & uc & rs & ->)]]]];
    cbn; repeat split; auto; lia.
Qed.

End ReadWorkloadMore.

Lemma handleDBRead_renders_the_answers_witness :
  exists product oc uc rs,
    emitted handleDBRead (world (shop []) [])
    = [EvQueryOne SProduct SelectRandomProduct product None;
       EvQueryOne SCount (CountOrders (Product.ID product)) oc None;
       EvQueryOne SCount (CountUniqueUsers (Product.ID product)) uc None;
       EvQuery SReviewRows (SelectReviews (Product.ID product)) rs None;
       EvRender "read.html"
         (ReadData (Product.Name product) (CountResult.Count oc)
                   (CountResult.Count uc) rs)] /\
    status_of (emitted handleDBRead (world (shop []) [])) = Some StatusOK.
Proof.
  apply (handleDBRead_renders_the_answers (world (shop []) [])).
  vm_compute. reflexivity.
Defined.

(** ** Further properties of setup and seed *)

Lemma emitted_of_run {DB G A} (m : M DB G A) (s s' : State DB G) (o : outcome A)
      (evs : list event) :
  m s = (o, s') -> trace s' = trace s ++ evs -> emitted m s = evs.
Proof.
  intros Hrun Htr. unfold emitted. rewrite Hrun. cbn [snd]. rewrite Htr.
  rewrite skipn_app, skipn_all, Nat.sub_diag. reflexivity.
Qed.
Arguments emitted_of_run {DB G A m s s' o evs} _ _.

Section SetupMore.
Context {DB G : Type} {pg : PgDB DB} {fk : Faker G}.

(** X9: [setupDatabase] executes its five statements, in the order
    extension, users, products, orders, reviews, whichever of them fail; it
    issues no query and no insert; its log holds the opening line, one line
    for each failed statement, and the closing success line, which is
    written even when every statement failed. *)
Theorem setupDatabase_runs_every_statement :
  forall s : State DB G,
    execs (emitted setupDatabase s)
    = [uuid_ossp; users_table; products_table; orders_table; reviews_table] /\
    queries (emitted setupDatabase s) = [] /\
    inserts (emitted setupDatabase s) = [] /\
    map snd (logs (emitted setupDatabase s))
    = [ADB] :: map (fun e => [AErr e]) (store_errors (emitted setupDatabase s)) ++ [[]] /\
    last (logs (emitted setupDatabase s)) ("", [])
    = ("Database schema created successfully", []).
Proof.
  intros s.
  destruct (safe_run setupDatabase_trace s) as (_ & _ & _ & e1 & e2 & e3 & e4 & e5 & ->).
  destruct e1, e2, e3, e4, e5; repeat split; reflexivity.
Qed.

(** X10: in the order [setupDatabase] executes them, every table that a
    column of a statement refers to is created by an earlier statement:
    orders and reviews come after users and products. *)
Theorem setupDatabase_creates_referenced_tables_first :
  forall s : State DB G,
    references_created_before [] (execs (emitted setupDatabase s)) = true /\
    flat_map referenced_tables (execs (emitted setupDatabase s))
    = ["users"; "products"; "products"; "users"].
Proof.
  intros s.
  destruct (safe_run setupDatabase_trace s) as (_ & _ & _ & e1 & e2 & e3 & e4 & e5 & ->).
  destruct e1, e2, e3, e4, e5; split; reflexivity.
Qed.

(** X11: [handleFirstRun] does what [setupDatabase] does and then writes the
    status 200 and its body; [handleSeedDB] does what [seedDatabase] does
    and then writes the status 201 and its body. *)
Theorem endpoints_run_setup_and_seed :
  forall s : State DB G,
    emitted handleFirstRun s
    = emitted setupDatabase s
        ++ [EvWriteHeader StatusOK; EvWrite "Database created successfully"] /\
    emitted handleSeedDB s
    = emitted seedDatabase s
        ++ [EvWriteHeader StatusCreated; EvWrite "Database seeded successfully"].
Proof.
  intros s. split.
  - destruct (setupDatabase_trace s) as (r & evs & s1 & Hrun & Htr & -> & _).
    rewrite (emitted_of_run Hrun Htr).
    eapply @emitted_of_run.
    + unfold handleFirstRun, bind. rewrite Hrun. cbn. reflexivity.
    + cbn. rewrite Htr, <- !app_assoc. reflexivity.
  - destruct (seedDatabase_trace s) as (r & evs & s1 & Hrun & Htr & -> & _).
    rewrite (emitted_of_run Hrun Htr).
    eapply @emitted_of_run.
    + unfold handleSeedDB, bind. rewrite Hrun. cbn. reflexivity.
    + cbn. rewrite Htr, <- !app_assoc. reflexivity.
Qed.

End SetupMore.

(** ** Further properties of the seed *)

Section SeedMore.
Context {DB G : Type} {pg : PgDB DB} {fk : Faker G}.

(** Two facts about the runs of one program hold together. *)
Lemma safe_and {A} (m : M DB G A) (P Q : A -> list event -> Prop) :
  safe m P -> safe m Q -> safe m (fun a evs => P a evs /\ Q a evs).
Proof.
  intros HP HQ s.
  destruct (HP s) as (a & evs & s' & Hrun & Htr & Hp).
  destruct (HQ s) as (a' & evs' & s'' & Hrun' & Htr' & Hq).
  rewrite Hrun in Hrun'. injection Hrun' as <- <-.
  rewrite Htr in Htr'. apply app_inv_head in Htr'. subst evs'.
  exists a, evs, s'. auto.
Qed.

Lemma newOrder_zero_id (us : list User.t) (ps : list Product.t) :
  0 < len us -> 0 < len ps ->
  safe (newOrder (DB := DB) (G := G) us ps) (fun o evs => evs = [] /\ Order.ID o = uuid_Nil).
Proof.
  intros Hus Hps. unfold newOrder.
  apply safe_bind, safe_Intn; [exact Hus|]. intros i Hi. cbv beta.
  apply safe_bind, safe_index; [exact Hi|]. intros u Hu. cbv beta.
  apply safe_bind, safe_Intn; [exact Hps|]. intros j Hj. cbv beta.
  apply safe_bind, safe_index; [exact Hj|]. intros p Hp. cbv beta.
  run_steps. split; reflexivity.
Qed.

Lemma newReview_zero_id (us : list User.t) (ps : list Product.t) :
  0 < len us -> 0 < len ps ->
  safe (newReview (DB := DB) (G := G) us ps) (fun r evs => evs = [] /\ Review.ID r = uuid_Nil).
Proof.
  intros Hus Hps. unfold newReview.
  apply safe_bind, safe_Intn; [exact Hus|]. intros i Hi. cbv beta.
  apply safe_bind, safe_index; [exact Hi|]. intros u Hu. cbv beta.
  apply safe_bind, safe_Intn; [exact Hps|]. intros j Hj. cbv beta.
  apply safe_bind, safe_index; [exact Hj|]. intros p Hp. cbv beta.
  run_steps. split; reflexivity.
Qed.

Lemma seedDatabase_body_zero_ids :
  safe (seedDatabase_body (DB := DB) (G := G)) (fun _ evs => zero_ids evs).
Proof.
  unfold seedDatabase_body, InsertUsers, InsertProducts, InsertOrders, InsertReviews, zero_ids.
  apply safe_bind.
  apply safe_make_range with (P := fun u => User.ID u = uuid_Nil);
    [lia | unfold newUser; run_steps; auto |].
  intros us Hus Hus0. run_steps.
  apply safe_make_range with (P := fun p => Product.ID p = uuid_Nil);
    [lia | unfold newProduct; run_steps; auto |].
  intros ps Hps Hps0. run_steps.
  match goal with
  | Hu : inserted _ us ?us' _, Hp : inserted _ ps ?ps' _ |- _ =>
      pose proof (inserted_len Hu) as Hus'; pose proof (inserted_len Hp) as Hps';
      apply safe_make_range with (P := fun o => Order.ID o = uuid_Nil);
      [lia | apply newOrder_zero_id; lia |]
  end.
  intros os Hos Hos0. run_steps.
  match goal with
  | Hu : inserted _ us ?us' _, Hp : inserted _ ps ?ps' _ |- _ =>
      apply safe_make_range with (P := fun r => Review.ID r = uuid_Nil);
      [lia | apply newReview_zero_id; lia |]
  end.
  intros rs Hrs Hrs0. run_steps.
  exists us, ps, os, rs. split; [|auto].
  repeat match goal with
         | |- context [log_if _ ?e] => is_var e; destruct e
         end; reflexivity.
Qed.

(** X12: every row of the four batches of a seed run is submitted with a
    zero ID: the seed chooses no primary key, the store generates them. *)
Theorem seedDatabase_leaves_the_keys_to_the_store :
  forall s : State DB G,
    exists us ps os rs,
      inserts (emitted seedDatabase s) = [BUsers us; BProducts ps; BOrders os; BReviews rs] /\
      Forall (fun u => User.ID u = uuid_Nil) us /\
      Forall (fun p => Product.ID p = uuid_Nil) ps /\
      Forall (fun o => Order.ID o = uuid_Nil) os /\
      Forall (fun r => Review.ID r = uuid_Nil) rs.
Proof.
  intros s. rewrite seedDatabase_emits_body.
  destruct (safe_run seedDatabase_body_zero_ids s) as (_ & _ & H). exact H.
Qed.

(** X13: when the bulk insert of the users fails, every Order and every
    Review of the run is submitted with [uuid.Nil] as user_id; when the bulk
    insert of the products fails, with [uuid.Nil] as product_id. *)
Theorem seedDatabase_failed_insert_gives_nil_references :
  forall (s : State DB G) (e1 e2 : option error) (rest : list (string * option error)),
    insert_outcomes (emitted seedDatabase s) = ("users", e1) :: ("products", e2) :: rest ->
    exists us ps os rs,
      inserts (emitted seedDatabase s) = [BUsers us; BProducts ps; BOrders os; BReviews rs] /\
      (e1 <> None ->
       Forall (fun o => Order.UserID o = uuid_Nil) os /\
       Forall (fun r => Review.UserID r = uuid_Nil) rs) /\
      (e2 <> None ->
       Forall (fun o => Order.ProductID o = uuid_Nil) os /\
       Forall (fun r => Review.ProductID r = uuid_Nil) rs).
Proof.
  intros s e1 e2 rest. rewrite seedDatabase_emits_body.
  destruct (safe_run (safe_and seedDatabase_body_trace seedDatabase_body_zero_ids) s)
    as (loc & _ & Hrun & Hzero).
  destruct Hrun as (us & ps & os & rs & f1 & f2 & f3 & f4 & _ & Hins & [Hos Hrs] & Hev).
  destruct Hzero as (us' & ps' & os' & rs' & Hins' & Hus0 & Hps0 & _ & _).
  rewrite Hev in *. clear Hev.
  assert (Hshape : us' = us /\ ps' = ps).
  { destruct f1, f2, f3, f4; cbn in Hins'; injection Hins' as <- <- _ _; auto. }
  destruct Hshape as [-> ->].
  intros Hout.
  assert (Hf : f1 = e1 /\ f2 = e2).
  { destruct f1, f2, f3, f4; cbn in Hout; injection Hout as <- <- _; auto. }
  destruct Hf as [-> ->].
  destruct Hins as (Hu & Hp & _ & _).
  exists us, ps, os, rs.
  split; [destruct e1, e2, f3, f4; reflexivity|].
  rewrite Forall_forall in Hus0, Hps0.
  split.
  - intros Hne. destruct e1 as [e|]; [|contradiction]. cbn in Hu. rewrite Hu in *.
    split; (eapply Forall_impl; [|eassumption]);
      intros row (u & p & Hin & _ & Huid & _); rewrite Huid; auto.
  - intros Hne. destruct e2 as [e|]; [|contradiction]. cbn in Hp. rewrite Hp in *.
    split; (eapply Forall_impl; [|eassumption]);
      intros row (u & p & _ & Hin & _ & Hpid & _); rewrite Hpid; auto.
Qed.

(** X14: after each of its four inserts [seedDatabase] logs the full count
    (2000 users, 100 products, 30000 orders, 10000 reviews), whether or not
    the insert failed; besides these four lines its log holds one line for
    each failed insert. *)
Theorem seedDatabase_logs_the_counts_even_on_error :
  forall s : State DB G,
    In ("Inserted %d users", [AInt 2000]) (logs (emitted seedDatabase s)) /\
    In ("Inserted %d products", [AInt 100]) (logs (emitted seedDatabase s)) /\
    In ("Inserted %d orders", [AInt 30000]) (logs (emitted seedDatabase s)) /\
    In ("Inserted %d reviews", [AInt 10000]) (logs (emitted seedDatabase s)) /\
    List.length (logs (emitted seedDatabase s))
    = (4 + List.length (store_errors (emitted seedDatabase s)))%nat.
Proof.
  intros s. destruct (safe_run seedDatabase_trace s) as (_ & _ & _ & loc & Hrun).
  destruct Hrun as (us & ps & os & rs & e1 & e2 & e3 & e4 & Hlen & Hins & _ & ->).
  destruct Hlen as (Hus & Hps & Hos & Hrs). destruct Hins as (Hu & Hp & Ho & Hr).
  apply inserted_len in Hu, Hp, Ho, Hr.
  rewrite Hu, Hp, Ho, Hr, Hus, Hps, Hos, Hrs.
  destruct e1, e2, e3, e4; cbn [logs store_errors app log_if In List.length];
    repeat split; auto 12.
Qed.

(** X15: the quantity of an Order is between 1 and 5 in the write workload
    and between 1 and 10 in the seed. *)
Theorem generated_quantities_in_range :
  forall s : State DB G,
    (exists o r,
        inserts (emitted handleDBWrite s) = [BOrder o; BReview r] /\
        1 <= Order.Quantity o <= 5) /\
    (exists us ps os rs,
        inserts (emitted seedDatabase s) = [BUsers us; BProducts ps; BOrders os; BReviews rs] /\
        Forall (fun o => 1 <= Order.Quantity o <= 10) os).
Proof.
  intros s. split.
  - destruct (safe_run handleDBWrite_trace s)
      as (_ & _ & product & e1 & user & e2 & q & now & e3 & rating & content & e4 & Hq & _ & ->).
    do 2 eexists. split; [destruct e1, e2, e3, e4; reflexivity|]. exact Hq.
  - destruct (safe_run seedDatabase_trace s) as (_ & _ & _ & loc & Hrun).
    destruct (seed_run_inserts Hrun) as (us & ps & os & rs & Hins & _ & Hos & _).
    exists us, ps, os, rs. split; [exact Hins|].
    eapply Forall_impl; [|exact Hos].
    intros o (u & p & _ & _ & _ & _ & Hq & _). exact Hq.
Qed.

End SeedMore.

Lemma seedDatabase_failed_insert_gives_nil_references_witness :
  exists us ps os rs,
    inserts (emitted seedDatabase (world (MemStore.empty [true; true]) []))
    = [BUsers us; BProducts ps; BOrders os; BReviews rs] /\
    (Forall (fun o => Order.UserID o = uuid_Nil) os /\
     Forall (fun r => Review.UserID r = uuid_Nil) rs) /\
    (Forall (fun o => Order.ProductID o = uuid_Nil) os /\
     Forall (fun r => Review.ProductID r = uuid_Nil) rs).
Proof.
  destruct (seedDatabase_failed_insert_gives_nil_references
              (world (MemStore.empty [true; true]) [])
              (e1 := Some ErrPool) (e2 := Some ErrPool)
              (rest := [("orders", Some ErrNotNull); ("reviews", Some ErrNotNull)]))
    as (us & ps & os & rs & Hins & Hu & Hp).
  - vm_compute. reflexivity.
  - exists us, ps, os, rs. split; [exact Hins|].
    split; [apply Hu | apply Hp]; discriminate.
Defined.

(** ** The stored total price *)

Lemma all_from_spec (P : Z -> bool) :
  forall (fuel : nat) (c0 : Z),
    all_from fuel c0 P = true ->
    forall c, c0 <= c < c0 + Z.of_nat fuel -> P c = true.
Proof.
  induction fuel as [|fuel IH]; intros c0 H c Hc.
  - cbn in Hc. lia.
  - cbn [all_from] in H. apply andb_prop in H as [Hc0 Hrest].
    destruct (Z.eq_dec c c0) as [-> | Hne]; [exact Hc0|].
    apply (IH (c0 + 1)); [exact Hrest | lia].
Qed.

Lemma numeric_units_shift_eq (scale : Z) (x : float64) :
  numeric_units_shift scale x = numeric_units scale x.
Proof.
  unfold numeric_units_shift, numeric_units.
  destruct (Prim2SF x) as [ | | | sign m e]; try reflexivity.
  cbv zeta. destruct (Z.leb_spec 0 e).
  - rewrite Z.shiftl_mul_pow2 by lia. reflexivity.
  - rewrite Z.shiftr_div_pow2, Z.shiftl_mul_pow2 by lia.
    rewrite Z.mul_1_l. replace (1 - e) with (Z.succ (- e)) by lia.
    rewrite Z.pow_succ_r by lia. reflexivity.
Qed.

(** Checked on every price from 0.00 to 99.99 and every quantity from 1
    to 10. *)
Lemma cents_exact_checked :
  all_from (Z.to_nat 10000) 0 (fun c => all_from 10 1 (cents_exact c)) = true.
Proof. vm_compute. reflexivity. Qed.

(** For a two-decimal price up to 99.99 and a quantity up to 10 the
    [float64] product is so close to the decimal product that the column
    keeps exactly [q * c] cents. *)
Lemma numeric_stores_product (c q : Z) :
  0 <= c <= 9999 -> 1 <= q <= 10 ->
  numeric_stores 10 2 (float64_of_int q * price_of_cents c)%float = Some (q * c).
Proof.
  intros Hc Hq.
  assert (Hexact : cents_exact c q = true).
  { pose proof (@all_from_spec _ _ _ cents_exact_checked c) as Hq_all.
    rewrite Z2Nat.id in Hq_all by lia. cbv beta in Hq_all.
    apply (@all_from_spec (cents_exact c) 10%nat 1); [apply Hq_all|]; lia. }
  unfold cents_exact in Hexact. rewrite numeric_units_shift_eq in Hexact.
  unfold numeric_stores.
  destruct (numeric_units 2 (float64_of_int q * price_of_cents c)%float) as [k|];
    [|discriminate Hexact].
  apply Z.eqb_eq in Hexact. subst k.
  assert (Hpow : 10 ^ 10 = 10000000000) by reflexivity. rewrite Hpow.
  destruct (Z.ltb_spec (Z.abs (q * c)) 10000000000); [reflexivity | nia].
Qed.

Lemma stored_total_price_eq (o : Order.t) :
  stored_total_price o = numeric_stores 10 2 (Order.TotalPrice o).
Proof. reflexivity. Qed.

Section StoredTotal.
Context {DB G : Type} {pg : PgDB DB} {fk : Faker G}.


End StoredTotal.


(** ** The references of the seeded rows *)

Lemma assign_ids_In {A} (getID : A -> UUID) (setID : UUID -> A -> A) (ids : nat -> UUID) :
  (forall x r, getID (setID x r) = x) ->
  forall (rows : list A) (k : nat) (u : A),
    In u (assign_ids setID ids k rows) ->
    exists i, (i < List.length rows)%nat /\ getID u = ids (k + i)%nat.
Proof.
  intros Hget. induction rows as [|r rows IH]; intros k u Hin; cbn in Hin; [contradiction|].
  destruct Hin as [<- | Hin].
  - exists 0%nat. rewrite Nat.add_0_r, Hget. cbn. split; [lia | reflexivity].
  - destruct (IH (S k) u Hin) as (i & Hi & ->).
    exists (S i). cbn. split; [lia | f_equal; lia].
Qed.

Lemma keys_In (ids : nat -> UUID) (n i : nat) : (i < n)%nat -> In (ids i) (keys ids n).
Proof.
  intros Hi. unfold keys. apply in_map, in_seq. lia.
Qed.

Section SeededReferences.
Context {DB G : Type} {pg : PgDB DB} {fk : Faker G}.


End SeededReferences.


